(** * diagnose_auth.py: the authentication diagnostic of the Monarch MCP server

    A shallow embedding of [diagnose_auth.py] and the properties of its
    decision logic.

    The script talks to three collaborators that live outside the file: the
    keyring-backed credential store ([secure_session.load_token]), the API
    client ([MonarchMoney]: [login], [get_accounts]) and [requests.get].  One
    run calls each of them at most once, so a run is determined by a [World]
    that records what each call answers; the script itself is a function from
    the world to the trace of effects it performs and the value it returns.

    Conventions.
    - A Python [str] is a Rocq [string] holding its UTF-8 text.  [len],
      slices and [strip] work on characters, that is on UTF-8 sequences:
      a character starts at every byte that is no continuation byte, and
      [strip] removes every character Python counts as white space.  [in]
      compares bytes, which finds the same matches as comparing characters.
      [lower] acts on the ASCII letters; the script only uses it to look for
      ASCII needles.
    - [input], [getpass] and [load_token] return, and [import requests]
      succeeds.
    - The return values [True], [False] and [None] of the two probes are
      [Some true], [Some false] and [None] of type [option bool].
    - An exception is an instance of [Exception] (the class both handlers
      catch), given by its class name and its [str()].  What is no
      [Exception] ([KeyboardInterrupt], [SystemExit],
      [asyncio.CancelledError]) is outside the model.
    - [hasattr(asyncio, 'run')] is a field of the world: the last line of
      the file tests it, while [main] calls [asyncio.run] without a test. *)

From Stdlib Require Import ZArith SpecFloat Ascii String.
From stdpp Require Import base strings gmap list pretty.

#[local] Set Warnings "-register-all".
#[local] Open Scope string_scope.
#[local] Open Scope list_scope.

(** ** Python text *)

Module Text.

(** [c.lower()] on one character: [A]-[Z] move to [a]-[z]. *)
Definition lower_char (c : ascii) : ascii :=
  let n := Ascii.N_of_ascii c in
  if ((65 <=? n) && (n <=? 90))%N then Ascii.ascii_of_N (n + 32) else c.

(** [s.lower()] *)
Fixpoint lower (s : string) : string :=
  match s with
  | EmptyString => EmptyString
  | String c t => String (lower_char c) (lower t)
  end.

(** [needle in hay]: some suffix of [hay] starts with [needle]. *)
Fixpoint str_in (needle hay : string) : bool :=
  String.prefix needle hay ||
  match hay with
  | EmptyString => false
  | String _ t => str_in needle t
  end.

(** The white space [str.strip()] removes, by the length of its UTF-8
    sequence.  One byte: tab, LF, VT, FF, CR, FS, GS, RS, US and the space. *)
Definition blank1 (c1 : ascii) : bool :=
  let a := Ascii.N_of_ascii c1 in
  (((9 <=? a) && (a <=? 13)) || ((28 <=? a) && (a <=? 32)))%N.

(** Two bytes: U+0085 (C2 85) and U+00A0 (C2 A0). *)
Definition blank2 (c1 c2 : ascii) : bool :=
  let a := Ascii.N_of_ascii c1 in
  let b := Ascii.N_of_ascii c2 in
  ((a =? 194) && ((b =? 133) || (b =? 160)))%N.

(** Three bytes: U+1680 (E1 9A 80), U+2000 to U+200A (E2 80 80 to E2 80 8A),
    U+2028, U+2029 and U+202F (E2 80 A8, E2 80 A9, E2 80 AF), U+205F
    (E2 81 9F) and U+3000 (E3 80 80). *)
Definition blank3 (c1 c2 c3 : ascii) : bool :=
  let a := Ascii.N_of_ascii c1 in
  let b := Ascii.N_of_ascii c2 in
  let c := Ascii.N_of_ascii c3 in
  (((a =? 225) && (b =? 154) && (c =? 128))
   || ((a =? 226) && (b =? 128)
       && (((128 <=? c) && (c <=? 138)) || (c =? 168) || (c =? 169) || (c =? 175)))
   || ((a =? 226) && (b =? 129) && (c =? 159))
   || ((a =? 227) && (b =? 128) && (c =? 128)))%N.

(** [s.lstrip()] *)
Fixpoint lstrip (s : string) : string :=
  match s with
  | EmptyString => EmptyString
  | String c1 t1 =>
      if blank1 c1 then lstrip t1
      else
        match t1 with
        | EmptyString => s
        | String c2 t2 =>
            if blank2 c1 c2 then lstrip t2
            else
              match t2 with
              | EmptyString => s
              | String c3 t3 => if blank3 c1 c2 c3 then lstrip t3 else s
              end
        end
  end.

(** [s] is made of white space only (the empty text included). *)
Fixpoint all_blank (s : string) : bool :=
  match s with
  | EmptyString => true
  | String c1 t1 =>
      if blank1 c1 then all_blank t1
      else
        match t1 with
        | EmptyString => false
        | String c2 t2 =>
            if blank2 c1 c2 then all_blank t2
            else
              match t2 with
              | EmptyString => false
              | String c3 t3 => blank3 c1 c2 c3 && all_blank t3
              end
        end
  end.

(** [s.rstrip()]: cut where only white space follows. *)
Fixpoint rstrip (s : string) : string :=
  match s with
  | EmptyString => EmptyString
  | String c t => if all_blank s then EmptyString else String c (rstrip t)
  end.

(** [s.strip()] *)
Definition strip (s : string) : string := rstrip (lstrip s).

(** A continuation byte of a UTF-8 sequence: 80 to BF. *)
Definition is_cont (c : ascii) : bool :=
  let n := Ascii.N_of_ascii c in
  ((128 <=? n) && (n <=? 191))%N.

(** [len(s)]: one character for every byte that starts a sequence. *)
Fixpoint len (s : string) : nat :=
  match s with
  | EmptyString => O
  | String c t => if is_cont c then len t else S (len t)
  end.

(** [s[:n]]: the first [n] characters. *)
Fixpoint take (n : nat) (s : string) : string :=
  match s with
  | EmptyString => EmptyString
  | String c t =>
      if is_cont c then String c (take n t)
      else
        match n with
        | O => EmptyString
        | S k => String c (take k t)
        end
  end.

(** [s[n:]]: what is left without the first [n] characters. *)
Fixpoint drop (n : nat) (s : string) : string :=
  match s with
  | EmptyString => EmptyString
  | String c t =>
      if is_cont c then drop n t
      else
        match n with
        | O => s
        | S k => drop k t
        end
  end.

(** [s[-n:]] for [n > 0]: the last [n] characters, all of [s] if it has no
    more. *)
Definition take_last (n : nat) (s : string) : string :=
  if (len s <=? n)%nat then s else drop (len s - n) s.

(** [c * n] for a one-character string *)
Fixpoint repeat (c : ascii) (n : nat) : string :=
  match n with
  | O => EmptyString
  | S k => String c (repeat c k)
  end.

(** [bool(s)] *)
Definition nonempty (s : string) : bool :=
  match s with
  | EmptyString => false
  | String _ _ => true
  end.

End Text.

(** ** Python values and exceptions *)

Module Py.

(** What [get_accounts] can hand back: the values of a decoded JSON
    document. *)
Inductive value :=
| VNone
| VBool (b : bool)
| VInt (z : Z)
| VFloat (f : spec_float)
| VStr (s : string)
| VList (l : list value)
| VDict (d : gmap string value).

(** An instance of [Exception]: [type(e).__name__] and [str(e)]. *)
Record exn := Exn { exc_type : string; exc_str : string }.

Inductive outcome (A : Type) :=
| Returns (a : A)
| Raises (e : exn).
Arguments Returns {A} a.
Arguments Raises {A} e.

(** [bool(v)] *)
Definition truthy (v : value) : bool :=
  match v with
  | VNone => false
  | VBool b => b
  | VInt z => negb (z =? 0)%Z
  | VFloat (S754_zero _) => false
  | VFloat _ => true
  | VStr s => Text.nonempty s
  | VList l => negb (bool_decide (l = []))
  | VDict d => negb (bool_decide (d = ∅))
  end.

(** [isinstance(v, dict)] *)
Definition is_dict (v : value) : bool :=
  match v with
  | VDict _ => true
  | _ => false
  end.

Definition type_name (v : value) : string :=
  match v with
  | VNone => "NoneType"
  | VBool _ => "bool"
  | VInt _ => "int"
  | VFloat _ => "float"
  | VStr _ => "str"
  | VList _ => "list"
  | VDict _ => "dict"
  end.

(** [len(v)]: defined on strings, lists and dicts, a [TypeError] on the
    rest. *)
Definition len (v : value) : outcome nat :=
  match v with
  | VStr s => Returns (Text.len s)
  | VList l => Returns (length l)
  | VDict d => Returns (size d)
  | _ => Raises (Exn "TypeError"
                   ("object of type '" +:+ type_name v +:+ "' has no len()"))
  end.

(** [d.get(key, default)] *)
Definition dict_get (d : gmap string value) (key : string) (default : value) : value :=
  match d !! key with
  | Some v => v
  | None => default
  end.

(** [bool(token)] for the [Optional[str]] the credential store returns. *)
Definition token_truthy (token : option string) : bool :=
  match token with
  | Some s => Text.nonempty s
  | None => false
  end.

End Py.

Import Py.

(** ** Effects: traces and exceptions *)

(** The two coroutines [main] hands to [asyncio.run]. *)
Inductive coroutine :=
| TestTokenValidity (token : string)
| TestFreshLogin (email password : string).

(** What a run does to the outside, in program order. *)
Inductive event :=
| EvPrint (text : string)              (* print(text) *)
| EvLoadToken                          (* secure_session.load_token() *)
| EvInput (prompt : string)            (* input(prompt) *)
| EvGetpass (prompt : string)          (* getpass.getpass(prompt) *)
| EvAsyncioRun (c : coroutine)         (* asyncio.run(c) *)
| EvNewClient (token : option string)  (* MonarchMoney(token=...) or MonarchMoney() *)
| EvLogin (email password : string)    (* client.login(email, password, use_saved_session=False) *)
| EvGetAccounts                        (* client.get_accounts() *)
| EvHttpGet (url : string) (timeout : Z). (* requests.get(url, timeout=timeout) *)

(** A computation performs events and then returns or raises. *)
Definition M (A : Type) : Type := list event * outcome A.

#[export] Instance M_ret : MRet M := λ A a, ([], Returns a).

#[export] Instance M_bind : MBind M := λ A B k m,
  match m with
  | (t, Returns a) => let '(t', r) := k a in (t ++ t', r)
  | (t, Raises e) => (t, Raises e)
  end.

Definition trace {A} (m : M A) : list event := fst m.
Definition result {A} (m : M A) : outcome A := snd m.

Definition call {A} (ev : event) (answer : outcome A) : M A := ([ev], answer).
Definition lift {A} (o : outcome A) : M A := ([], o).
Definition raise {A} (e : exn) : M A := ([], Raises e).
Definition print (text : string) : M unit := call (EvPrint text) (Returns tt).

(** [try: body except Exception as e: handler e] *)
Definition try_except {A} (body : M A) (handler : exn → M A) : M A :=
  match body with
  | (t, Returns a) => (t, Returns a)
  | (t, Raises e) => let '(t', r) := handler e in (t ++ t', r)
  end.

(** [asyncio.run(arg)]: runs a coroutine to completion; anything else is
    refused with a [ValueError]. *)
Definition asyncio_run {A} (arg : option (coroutine * M A)) : M A :=
  match arg with
  | Some (c, body) => call (EvAsyncioRun c) (Returns tt) ;; body
  | None => raise (Exn "ValueError" "a coroutine was expected, got None")
  end.

(** [loop.run_until_complete(arg)], the fallback of interpreters without
    [asyncio.run]. *)
Definition run_until_complete {A} (arg : option (coroutine * M A)) : M A :=
  match arg with
  | Some (c, body) => call (EvAsyncioRun c) (Returns tt) ;; body
  | None => raise (Exn "TypeError"
                     "An asyncio.Future, a coroutine or an awaitable is required")
  end.

(** [accounts.get(key, default)]: a method of dicts only. *)
Definition method_get (v : value) (key : string) (default : value) : outcome value :=
  match v with
  | VDict d => Returns (dict_get d key default)
  | _ => Raises (Exn "AttributeError"
                   ("'" +:+ type_name v +:+ "' object has no attribute 'get'"))
  end.

(** ** The world of one run *)

(** What [requests.get] answers: a response with its status code, or an
    exception together with what [isinstance] says of it for
    [requests.exceptions.Timeout] and [requests.exceptions.ConnectionError]. *)
Inductive http_answer :=
| HttpResponse (status_code : Z)
| HttpRaises (e : exn) (is_timeout is_connection_error : bool).

Record World := {
  clock : string;                 (* datetime.now().strftime('%Y-%m-%d %H:%M:%S') *)
  stored_token : option string;   (* secure_session.load_token() *)
  typed_email : string;           (* the line read by input() *)
  typed_password : string;        (* the line read by getpass.getpass() *)
  login_answer : outcome unit;    (* client.login(...) *)
  accounts_answer : outcome value;(* client.get_accounts() *)
  http : http_answer;             (* requests.get(...) *)
  has_asyncio_run : bool          (* hasattr(asyncio, 'run') *)
}.

(** The three verdicts, as the probes return them. *)
Definition VALID : option bool := Some true.
Definition INVALID : option bool := Some false.
Definition RATE_LIMITED : option bool := None.

(** What looking up [asyncio.run] raises on an interpreter that has no such
    function. *)
Definition no_asyncio_run : exn :=
  Exn "AttributeError" "module 'asyncio' has no attribute 'run'".

(** [asyncio.run(arg)] as [main] writes it, without a test for the
    attribute: the lookup of [asyncio.run] comes first and raises where the
    function is missing, before the coroutine is made. *)
Definition asyncio_dot_run {A} (w : World) (arg : option (coroutine * M A)) : M A :=
  if has_asyncio_run w then asyncio_run arg else raise no_asyncio_run.

Definition nl : string := String (Ascii.ascii_of_nat 10) EmptyString.
Definition banner : string := Text.repeat "="%char 80.

(** ** The script *)

(** The [except Exception as e] block of [test_token_validity]. *)
Definition token_validity_handler (e : exn) : M (option bool) :=
  let error_str := Text.lower (exc_str e) in
  if Text.str_in "401" error_str || Text.str_in "unauthorized" error_str
     || Text.str_in "authentication" error_str then
    print ("❌ Token is EXPIRED or INVALID: " +:+ exc_str e) ;;
    mret (Some false)
  else if Text.str_in "429" error_str || Text.str_in "rate limit" error_str
          || Text.str_in "too many requests" error_str then
    print ("⚠️  RATE LIMITED (429): " +:+ exc_str e) ;;
    print "   This is a temporary issue - wait 30-60 minutes" ;;
    mret None
  else
    print ("❌ Token test failed with error: " +:+ exc_str e) ;;
    print ("   Error type: " +:+ exc_type e) ;;
    mret (Some false).

Definition test_token_validity (w : World) (token : string) : M (option bool) :=
  print (nl +:+ "🔍 Testing token validity...") ;;
  try_except
    (call (EvNewClient (Some token)) (Returns tt) ;;
     accounts ← call EvGetAccounts (accounts_answer w) ;
     if truthy accounts && is_dict accounts then
       listed ← lift (method_get accounts "accounts" (VList [])) ;
       account_count ← lift (len listed) ;
       print ("✅ Token is VALID - Found " +:+ pretty account_count +:+ " accounts") ;;
       mret (Some true)
     else
       print "⚠️  Token exists but API returned unexpected format" ;;
       mret (Some false))
    token_validity_handler.

(** The [except Exception as e] block of [test_fresh_login]. *)
Definition fresh_login_handler (e : exn) : M (option bool) :=
  let error_str := Text.lower (exc_str e) in
  if Text.str_in "429" error_str || Text.str_in "rate limit" error_str
     || Text.str_in "too many requests" error_str then
    print ("❌ RATE LIMITED (429) during fresh login: " +:+ exc_str e) ;;
    print "   ⏰ Wait 30-60 minutes before trying again" ;;
    mret None
  else if Text.str_in "401" error_str || Text.str_in "unauthorized" error_str then
    print ("❌ Authentication failed: " +:+ exc_str e) ;;
    print "   Check your credentials" ;;
    mret (Some false)
  else
    print ("❌ Fresh login failed: " +:+ exc_str e) ;;
    print ("   Error type: " +:+ exc_type e) ;;
    mret (Some false).

Definition test_fresh_login (w : World) (email password : string) : M (option bool) :=
  print (nl +:+ "🔍 Testing fresh login...") ;;
  try_except
    (call (EvNewClient None) (Returns tt) ;;
     call (EvLogin email password) (login_answer w) ;;
     accounts ← call EvGetAccounts (accounts_answer w) ;
     if truthy accounts && is_dict accounts then
       listed ← lift (method_get accounts "accounts" (VList [])) ;
       account_count ← lift (len listed) ;
       print ("✅ Fresh login WORKS - Found " +:+ pretty account_count +:+ " accounts") ;;
       mret (Some true)
     else
       print "⚠️  Fresh login succeeded but API returned unexpected format" ;;
       mret (Some false))
    fresh_login_handler.

(** [bool(result)] for a probe's return value *)
Definition result_truthy (r : option bool) : bool :=
  match r with
  | Some b => b
  | None => false
  end.

(** The text of a truthy token *)
Definition token_text (token : option string) : string :=
  match token with
  | Some s => s
  | None => EmptyString
  end.

(** [asyncio.run(test_fresh_login(email, password))], whose value [main]
    binds to [result] on the no-token branch. *)
Definition run_fresh_login (w : World) (email password : string) : M (option bool) :=
  asyncio_dot_run w (Some (TestFreshLogin email password,
                           test_fresh_login w email password)).

(** [main], the [else] branch of the first test: no token, the interactive
    fresh login, and [return]. *)
Definition main_no_token (w : World) : M unit :=
  print "❌ No token found in keyring" ;;
  print "   → Need to run login_setup.py" ;;
  print EmptyString ;;
  print "Since you can log in via web browser, let's test fresh login..." ;;
  typed ← call (EvInput (nl +:+ "Enter your Monarch email (or press Enter to skip): "))
            (Returns (typed_email w)) ;
  let email := Text.strip typed in
  if Text.nonempty email then
    password ← call (EvGetpass "Enter your Monarch password: ")
                 (Returns (typed_password w)) ;
    r ← run_fresh_login w email password ;
    if result_truthy r then
      print (nl +:+ "✅ Fresh login successful! Run login_setup.py to save the session.")
    else if bool_decide (r = None) then
      print (nl +:+ "⏰ Rate limited - wait 30-60 minutes, then run login_setup.py")
    else
      print (nl +:+ "❌ Fresh login failed - check credentials")
  else
    mret tt.

(** The conclusion printed after the validity probe. *)
Definition print_conclusion (r : option bool) : M unit :=
  if bool_decide (r = Some true) then
    print (nl +:+ "✅ CONCLUSION: Token is valid and working!") ;;
    print "   → Authentication is working correctly" ;;
    print "   → Issue may be in how the dashboard scripts call the API"
  else if bool_decide (r = Some false) then
    print (nl +:+ "❌ CONCLUSION: Token is expired or invalid") ;;
    print "   → Need to re-authenticate" ;;
    print "   → Run: python login_setup.py" ;;
    print (nl +:+ "   Since web login works, this suggests:") ;;
    print "   • Token may have expired (tokens typically last 30 days)" ;;
    print "   • Token format may have changed" ;;
    print "   • API may require re-authentication"
  else if bool_decide (r = None) then
    print (nl +:+ "⏰ CONCLUSION: Rate limited - cannot determine token validity") ;;
    print "   → Wait 30-60 minutes" ;;
    print "   → Then run: python login_setup.py" ;;
    print (nl +:+ "   Since web login works, this suggests:") ;;
    print "   • Too many API attempts triggered rate limiting" ;;
    print "   • Web interface may have different rate limits" ;;
    print "   • API has stricter rate limiting than web"
  else
    mret tt.

(** The reachability probe: one GET, then one of four reports. *)
Definition reachability_report (a : http_answer) : string :=
  match a with
  | HttpResponse status_code =>
      "✅ API endpoint reachable (Status: " +:+ pretty status_code +:+ ")"
  | HttpRaises e is_timeout is_connection_error =>
      if is_timeout then "⚠️  API endpoint timeout - network issue?"
      else if is_connection_error then "❌ Cannot connect to API - network issue?"
      else "⚠️  API connectivity check failed: " +:+ exc_str e
  end.

Definition check_connectivity (w : World) : M unit :=
  print (nl +:+ banner) ;;
  print "CHECK 3: API Connectivity" ;;
  print banner ;;
  call (EvHttpGet "https://api.monarchmoney.com" 5) (Returns tt) ;;
  print (reachability_report (http w)).

(** The "Key Findings" of the summary. *)
Definition print_findings (token : option string) (r : option bool) : M unit :=
  if negb (token_truthy token) then
    print "  • No token stored - need initial authentication"
  else if bool_decide (r = Some true) then
    print "  • Token exists and is valid" ;;
    print "  • Authentication should work"
  else if bool_decide (r = Some false) then
    print "  • Token exists but is expired/invalid" ;;
    print "  • Need to re-authenticate"
  else if bool_decide (r = None) then
    print "  • Token exists but rate limited" ;;
    print "  • Wait before retrying"
  else
    mret tt.

Definition print_summary (token : option string) (r : option bool) : M unit :=
  print (nl +:+ banner) ;;
  print "DIAGNOSTIC SUMMARY" ;;
  print banner ;;
  print (nl +:+ "Key Findings:") ;;
  print_findings token r ;;
  print (nl +:+ "Since web login works:") ;;
  print "  ✅ Credentials are correct" ;;
  print "  ✅ Account is not locked" ;;
  print "  ✅ Network connectivity is fine" ;;
  print (nl +:+ "Possible causes:") ;;
  print "  1. Token expiration (most likely if token exists but invalid)" ;;
  print "  2. Rate limiting from too many API attempts" ;;
  print "  3. API vs Web authentication differences" ;;
  print "  4. Token format changes in Monarch API".

(** The line under "RECOMMENDED ACTION". *)
Definition recommended_action (token : option string) (r : option bool) : string :=
  if negb (token_truthy token) then
    "→ Run: python login_setup.py"
  else if bool_decide (r = Some false) then
    "→ Token expired - run: python login_setup.py"
  else if bool_decide (r = None) then
    "→ Rate limited - wait 30-60 minutes, then run: python login_setup.py"
  else
    "→ Token is valid - check dashboard scripts for other issues".

Definition print_recommendation (token : option string) (r : option bool) : M unit :=
  print (nl +:+ banner) ;;
  print "RECOMMENDED ACTION" ;;
  print banner ;;
  print (recommended_action token r).

(** [asyncio.run(test_token_validity(token))], whose value [main] binds to
    [result]. *)
Definition run_validity (w : World) (token : string) : M (option bool) :=
  asyncio_dot_run w (Some (TestTokenValidity token, test_token_validity w token)).

(** [main], from the banner of the second check to the end. *)
Definition main_with_token (w : World) (token : option string) : M unit :=
  print (nl +:+ banner) ;;
  print "CHECK 2: Token Validity" ;;
  print banner ;;
  r ← run_validity w (token_text token) ;
  print_conclusion r ;;
  check_connectivity w ;;
  print_summary token r ;;
  print_recommendation token r.

(** [main], the title and the banner of the first check. *)
Definition print_header (w : World) : M unit :=
  print banner ;;
  print "MONARCH AUTHENTICATION DIAGNOSTIC" ;;
  print banner ;;
  print ("Time: " +:+ clock w) ;;
  print EmptyString ;;
  print banner ;;
  print "CHECK 1: Token Existence" ;;
  print banner.

Definition main (w : World) : M unit :=
  print_header w ;;
  token ← call EvLoadToken (Returns (stored_token w)) ;
  if token_truthy token then
    print "✅ Token EXISTS in keyring" ;;
    print ("   Token length: " +:+ pretty (Text.len (token_text token))
           +:+ " characters") ;;
    print ("   Token preview: " +:+ Text.take 20 (token_text token) +:+ "..."
           +:+ Text.take_last 10 (token_text token)) ;;
    main_with_token w token
  else
    main_no_token w.

(** [main] is a plain [def]: the value of [main()] is [None], which is no
    coroutine. *)
Definition as_coroutine (returned : unit) : option (coroutine * M unit) := None.

(** The last line of the file, run under [__name__ == "__main__"]:
    [asyncio.run(main()) if hasattr(asyncio, 'run') else
     asyncio.get_event_loop().run_until_complete(main())].
    The argument [main()] is evaluated before the call it is passed to. *)
Definition script (w : World) : M unit :=
  if has_asyncio_run w then
    returned ← main w ;
    asyncio_run (as_coroutine returned)
  else
    returned ← main w ;
    run_until_complete (as_coroutine returned).

(** The exit status of the interpreter: 0 when the script runs off its end,
    1 when an exception reaches the top level. *)
Definition exit_status {A} (m : M A) : Z :=
  match result m with
  | Returns _ => 0
  | Raises _ => 1
  end.

(** ** Observations on traces *)

Definition printed (t : list event) : list string :=
  omap (λ ev, match ev with EvPrint s => Some s | _ => None end) t.

Definition is_http_get (ev : event) : bool :=
  match ev with
  | EvHttpGet _ _ => true
  | _ => false
  end.

(** The validity probe was started: [asyncio.run(test_token_validity(..))]. *)
Definition is_validity_run (ev : event) : bool :=
  match ev with
  | EvAsyncioRun (TestTokenValidity _) => true
  | _ => false
  end.

(** The fresh-login probe was started: [asyncio.run(test_fresh_login(..))]. *)
Definition is_fresh_login_run (ev : event) : bool :=
  match ev with
  | EvAsyncioRun (TestFreshLogin _ _) => true
  | _ => false
  end.

(** The stored token was presented to the API. *)
Definition is_token_use (ev : event) : bool :=
  match ev with
  | EvNewClient (Some _) => true
  | _ => false
  end.

Definition occurs (p : event → bool) (t : list event) : bool := existsb p t.
Definition count (p : event → bool) (t : list event) : nat := length (filter (λ ev, p ev = true) t).

(** The tests the two handlers apply to the lowered message. *)
Definition auth_marked (error_str : string) : bool :=
  Text.str_in "401" error_str || Text.str_in "unauthorized" error_str
  || Text.str_in "authentication" error_str.

Definition login_marked (error_str : string) : bool :=
  Text.str_in "401" error_str || Text.str_in "unauthorized" error_str.

Definition rate_marked (error_str : string) : bool :=
  Text.str_in "429" error_str || Text.str_in "rate limit" error_str
  || Text.str_in "too many requests" error_str.

(** The values [len] accepts. *)
Definition sized (v : value) : bool :=
  match v with
  | VStr _ | VList _ | VDict _ => true
  | _ => false
  end.

(** The four ways the reachability probe can end: the [try] body or one of
    the three [except] clauses, tried in the order they are written. *)
Inductive reach := Reachable | TimedOut | CannotConnect | CheckFailed.

Definition reachability (a : http_answer) : reach :=
  match a with
  | HttpResponse _ => Reachable
  | HttpRaises _ true _ => TimedOut
  | HttpRaises _ false true => CannotConnect
  | HttpRaises _ false false => CheckFailed
  end.

(** Reading a report line back: which of the four it announces. *)
Definition report_kind (line : string) : option reach :=
  if String.eqb line "⚠️  API endpoint timeout - network issue?" then Some TimedOut
  else if String.eqb line "❌ Cannot connect to API - network issue?" then Some CannotConnect
  else if String.prefix "✅ API endpoint reachable (Status: " line then Some Reachable
  else if String.prefix "⚠️  API connectivity check failed: " line then Some CheckFailed
  else None.

(** What each probe does up to and including its call of [get_accounts]. *)
Definition validity_opening (token : string) : list event :=
  [EvPrint (nl +:+ "🔍 Testing token validity..."); EvNewClient (Some token);
   EvGetAccounts].

Definition fresh_login_opening (email password : string) : list event :=
  [EvPrint (nl +:+ "🔍 Testing fresh login..."); EvNewClient None;
   EvLogin email password; EvGetAccounts].

Definition is_print (ev : event) : bool :=
  match ev with
  | EvPrint _ => true
  | _ => false
  end.

(** What [main] does on the no-token branch up to and including the prompt
    for the address. *)
Definition no_token_prompt : list event :=
  [EvPrint "❌ No token found in keyring";
   EvPrint "   → Need to run login_setup.py";
   EvPrint EmptyString;
   EvPrint "Since you can log in via web browser, let's test fresh login...";
   EvInput (nl +:+ "Enter your Monarch email (or press Enter to skip): ")].

(** What [main] prints on the token branch before it turns to
    [asyncio.run] for the validity probe. *)
Definition token_announced (token : string) : list event :=
  [EvPrint "✅ Token EXISTS in keyring";
   EvPrint ("   Token length: " +:+ pretty (Text.len token) +:+ " characters");
   EvPrint ("   Token preview: " +:+ Text.take 20 token +:+ "..."
            +:+ Text.take_last 10 token);
   EvPrint (nl +:+ banner);
   EvPrint "CHECK 2: Token Validity";
   EvPrint banner].

(** ** Worlds that differ in one answer *)

Definition with_accounts (a : outcome value) (w : World) : World :=
  {| clock := clock w;
     stored_token := stored_token w;
     typed_email := typed_email w;
     typed_password := typed_password w;
     login_answer := login_answer w;
     accounts_answer := a;
     http := http w;
     has_asyncio_run := has_asyncio_run w |}.

Definition with_token (token : option string) (w : World) : World :=
  {| clock := clock w;
     stored_token := token;
     typed_email := typed_email w;
     typed_password := typed_password w;
     login_answer := login_answer w;
     accounts_answer := accounts_answer w;
     http := http w;
     has_asyncio_run := has_asyncio_run w |}.

Definition with_typed (email password : string) (w : World) : World :=
  {| clock := clock w;
     stored_token := stored_token w;
     typed_email := email;
     typed_password := password;
     login_answer := login_answer w;
     accounts_answer := accounts_answer w;
     http := http w;
     has_asyncio_run := has_asyncio_run w |}.

Definition with_asyncio_run (b : bool) (w : World) : World :=
  {| clock := clock w;
     stored_token := stored_token w;
     typed_email := typed_email w;
     typed_password := typed_password w;
     login_answer := login_answer w;
     accounts_answer := accounts_answer w;
     http := http w;
     has_asyncio_run := b |}.

Definition with_http (a : http_answer) (w : World) : World :=
  {| clock := clock w;
     stored_token := stored_token w;
     typed_email := typed_email w;
     typed_password := typed_password w;
     login_answer := login_answer w;
     accounts_answer := accounts_answer w;
     http := a;
     has_asyncio_run := has_asyncio_run w |}.

(** ** Scenarios *)

Module Scenario.

Definition three_accounts : value :=
  VDict {[ "accounts" := VList [VInt 1; VInt 2; VInt 3] ]}.

(** A stored token the API accepts. *)
Definition good_token : World :=
  {| clock := "2025-01-15 09:30:00";
     stored_token := Some "GOODTOKEN";
     typed_email := EmptyString;
     typed_password := EmptyString;
     login_answer := Returns tt;
     accounts_answer := Returns three_accounts;
     http := HttpResponse 200;
     has_asyncio_run := true |}.

(** A stored token the API rejects. *)
Definition unauthorized : exn := Exn "Exception" "401 Unauthorized".
Definition bad_token : World :=
  with_token (Some "BADTOKEN") (with_accounts (Raises unauthorized) good_token).

(** The API throttles. *)
Definition throttled : exn := Exn "Exception" "429 Too Many Requests".
Definition throttled_token : World := with_accounts (Raises throttled) good_token.

(** Messages that carry a marker of each family. *)
Definition unauthorized_and_throttled : exn :=
  Exn "Exception" "401 Unauthorized: rate limit exceeded".
Definition throttled_authentication : exn :=
  Exn "Exception" "429 Too Many Requests: authentication attempts exceeded".

(** Nothing stored; the user types an address and a password. *)
Definition no_token : World :=
  with_typed " user@example.com " "hunter2" (with_token None good_token).

(** An empty string stored. *)
Definition empty_token : World := with_token (Some EmptyString) no_token.

(** A dict whose "accounts" entry has no length. *)
Definition null_accounts : value := VDict {[ "accounts" := VNone ]}.

(** A dict without an "accounts" entry. *)
Definition other_payload : value := VDict {[ "errors" := VList [] ]}.

End Scenario.

(** ** Further observations *)

Definition is_get_accounts (ev : event) : bool :=
  match ev with
  | EvGetAccounts => true
  | _ => false
  end.

Definition is_login (ev : event) : bool :=
  match ev with
  | EvLogin _ _ => true
  | _ => false
  end.

Definition is_new_client (ev : event) : bool :=
  match ev with
  | EvNewClient _ => true
  | _ => false
  end.

Definition is_load_token (ev : event) : bool :=
  match ev with
  | EvLoadToken => true
  | _ => false
  end.

(** The run waits for the user: [input] or [getpass]. *)
Definition is_interactive (ev : event) : bool :=
  match ev with
  | EvInput _ | EvGetpass _ => true
  | _ => false
  end.

(** What a run does besides printing. *)
Definition effects (t : list event) : list event :=
  filter (λ ev, is_print ev = false) t.

(** A text made of white space only. *)
Definition all_blank (s : string) : bool := Text.all_blank s.

(** The line [main] prints after the fresh-login probe. *)
Definition fresh_login_closing (r : option bool) : string :=
  match r with
  | Some true => nl +:+ "✅ Fresh login successful! Run login_setup.py to save the session."
  | None => nl +:+ "⏰ Rate limited - wait 30-60 minutes, then run login_setup.py"
  | Some false => nl +:+ "❌ Fresh login failed - check credentials"
  end.

(** * Properties *)

(** ** Substrings and lowering *)

Section TextFacts.

Lemma prefix_app (p s : string) : String.prefix p (p +:+ s) = true.
Proof.
  induction p as [|c p IH]; simpl.
  - by destruct s.
  - destruct (Ascii.ascii_dec c c); [exact IH | congruence].
Qed.

Lemma prefix_split (p s : string) :
  String.prefix p s = true → ∃ post, s = p +:+ post.
Proof.
  revert s; induction p as [|c p IH]; intros s H.
  - by exists s.
  - destruct s as [|c' s]; simpl in H; [discriminate|].
    destruct (Ascii.ascii_dec c c') as [->|]; [|discriminate].
    destruct (IH _ H) as [post ->]. by exists post.
Qed.

(** [needle in hay] holds exactly when [hay] is some text, the needle, and
    some more text. *)
Lemma str_in_app (needle pre post : string) :
  Text.str_in needle (pre +:+ needle +:+ post) = true.
Proof.
  induction pre as [|c pre IH].
  - change (Text.str_in needle (needle +:+ post) = true).
    destruct needle, post; simpl; rewrite ?prefix_app; try done;
      destruct (Ascii.ascii_dec _ _); try done; by rewrite prefix_app.
  - change (Text.str_in needle (String c (pre +:+ needle +:+ post)) = true).
    cbn [Text.str_in]. rewrite IH. apply orb_true_r.
Qed.

Lemma str_in_split (needle hay : string) :
  Text.str_in needle hay = true → ∃ pre post, hay = pre +:+ needle +:+ post.
Proof.
  induction hay as [|c hay IH]; cbn [Text.str_in]; intros H.
  - rewrite orb_false_r in H. destruct (prefix_split _ _ H) as [post E].
    by exists EmptyString, post.
  - apply orb_true_iff in H as [H|H].
    + destruct (prefix_split _ _ H) as [post E]. by exists EmptyString, post.
    + destruct (IH H) as (pre & post & ->). by exists (String c pre), post.
Qed.

Lemma lower_app (a b : string) :
  Text.lower (a +:+ b) = Text.lower a +:+ Text.lower b.
Proof. induction a as [|c a IH]; simpl; [done | by rewrite IH]. Qed.

(** Lowering keeps every needle that is already in lower case. *)
Lemma str_in_lower (needle hay : string) :
  Text.lower needle = needle →
  Text.str_in needle hay = true →
  Text.str_in needle (Text.lower hay) = true.
Proof.
  intros Hn H. destruct (str_in_split _ _ H) as (pre & post & ->).
  rewrite !lower_app, Hn. apply str_in_app.
Qed.

End TextFacts.

#[global] Arguments Text.str_in : simpl never.
#[global] Arguments Text.lower : simpl never.

(** ** The monad *)

Section MonadFacts.
Context {A B : Type}.

Lemma bind_returns (t : list event) (a : A) (k : A → M B) :
  ((t, Returns a) ≫= k) = (t ++ trace (k a), result (k a)).
Proof. unfold mbind, M_bind. by destruct (k a). Qed.

Lemma bind_raises (t : list event) (e : exn) (k : A → M B) :
  ((t, Raises e : outcome A) ≫= k) = (t, Raises e).
Proof. reflexivity. Qed.

Lemma result_bind_returns (m : M A) (a : A) (k : A → M B) :
  result m = Returns a → result (m ≫= k) = result (k a).
Proof. destruct m as [t o]; intros H; simpl in H; subst o. by rewrite bind_returns. Qed.

Lemma trace_bind_returns (m : M A) (a : A) (k : A → M B) :
  result m = Returns a → trace (m ≫= k) = trace m ++ trace (k a).
Proof. destruct m as [t o]; intros H; simpl in H; subst o. by rewrite bind_returns. Qed.

End MonadFacts.

(** ** The two exception handlers *)

Section Handlers.
Variable e : exn.

Let error_str := Text.lower (exc_str e).

Lemma token_validity_handler_result :
  result (token_validity_handler e) =
  Returns (if auth_marked error_str then INVALID
           else if rate_marked error_str then RATE_LIMITED
           else INVALID).
Proof.
  unfold token_validity_handler, auth_marked, rate_marked, error_str.
  repeat case_match; reflexivity.
Qed.

Lemma fresh_login_handler_result :
  result (fresh_login_handler e) =
  Returns (if rate_marked error_str then RATE_LIMITED else INVALID).
Proof.
  unfold fresh_login_handler, rate_marked, error_str.
  repeat case_match; reflexivity.
Qed.

End Handlers.

(** ** The two probes *)

Section Probes.
Variable w : World.

(** When [get_accounts] raises, the validity probe ends in its handler. *)
Lemma token_validity_on_raise (token : string) (e : exn) :
  accounts_answer w = Raises e →
  test_token_validity w token =
  ([EvPrint (nl +:+ "🔍 Testing token validity..."); EvNewClient (Some token);
    EvGetAccounts] ++ trace (token_validity_handler e),
   result (token_validity_handler e)).
Proof.
  intros H. unfold test_token_validity. rewrite H.
  unfold try_except, print, call, mbind, M_bind.
  by destruct (token_validity_handler e).
Qed.

(** When [login] returns and [get_accounts] raises, the fresh-login probe
    ends in its handler. *)
Lemma fresh_login_on_raise (email password : string) (e : exn) :
  login_answer w = Returns tt →
  accounts_answer w = Raises e →
  test_fresh_login w email password =
  ([EvPrint (nl +:+ "🔍 Testing fresh login..."); EvNewClient None;
    EvLogin email password; EvGetAccounts] ++ trace (fresh_login_handler e),
   result (fresh_login_handler e)).
Proof.
  intros Hl H. unfold test_fresh_login. rewrite Hl, H.
  unfold try_except, print, call, mbind, M_bind.
  by destruct (fresh_login_handler e).
Qed.

(** When [login] itself raises, the fresh-login probe ends in the same
    handler. *)
Lemma fresh_login_on_login_raise (email password : string) (e : exn) :
  login_answer w = Raises e →
  test_fresh_login w email password =
  ([EvPrint (nl +:+ "🔍 Testing fresh login..."); EvNewClient None;
    EvLogin email password] ++ trace (fresh_login_handler e),
   result (fresh_login_handler e)).
Proof.
  intros Hl. unfold test_fresh_login. rewrite Hl.
  unfold try_except, print, call, mbind, M_bind.
  by destruct (fresh_login_handler e).
Qed.

End Probes.

(** A marker found in the message is found in the lowered message. *)
Lemma login_marked_lower (msg : string) :
  Text.str_in "401" msg = true ∨ Text.str_in "unauthorized" msg = true →
  login_marked (Text.lower msg) = true.
Proof.
  unfold login_marked. intros [H|H]; apply orb_true_iff; [left|right];
    by apply str_in_lower.
Qed.

Lemma auth_marked_of_login_marked (s : string) :
  login_marked s = true → auth_marked s = true.
Proof. unfold auth_marked, login_marked. intros ->. reflexivity. Qed.

Lemma rate_marked_lower (msg : string) :
  Text.str_in "429" msg = true ∨ Text.str_in "rate limit" msg = true
  ∨ Text.str_in "too many requests" msg = true →
  rate_marked (Text.lower msg) = true.
Proof.
  unfold rate_marked. intros [H|[H|H]]; apply (str_in_lower _ _ eq_refl) in H;
    rewrite H, ?orb_true_r; reflexivity.
Qed.

(** C1, as amended.  When [get_accounts] raises an exception whose message
    contains "401" or "unauthorized", the token-validity probe returns
    INVALID.  The fresh-login probe, reached after a successful [login],
    returns INVALID unless the lowered message also contains "429",
    "rate limit" or "too many requests", in which case it returns
    RATE_LIMITED.  Neither probe returns VALID. *)
Theorem C1_unauthorized_is_invalid (w : World) (token email password : string) (e : exn) :
  accounts_answer w = Raises e →
  login_answer w = Returns tt →
  Text.str_in "401" (exc_str e) = true ∨ Text.str_in "unauthorized" (exc_str e) = true →
  result (test_token_validity w token) = Returns INVALID
  ∧ result (test_fresh_login w email password) =
      Returns (if rate_marked (Text.lower (exc_str e)) then RATE_LIMITED else INVALID)
  ∧ result (test_token_validity w token) ≠ Returns VALID
  ∧ result (test_fresh_login w email password) ≠ Returns VALID.
Proof.
  intros Ha Hl Hm.
  rewrite (token_validity_on_raise w token e Ha).
  rewrite (fresh_login_on_raise w email password e Hl Ha).
  cbn [result snd].
  rewrite token_validity_handler_result, fresh_login_handler_result.
  rewrite (auth_marked_of_login_marked _ (login_marked_lower _ Hm)).
  repeat split; try done. by case_match.
Qed.

(** C1 at a concrete run: a rejected stored token, and a fresh login
    rejected with the same message. *)
Lemma C1_unauthorized_is_invalid_witness :
  result (test_token_validity Scenario.bad_token "BADTOKEN") = Returns INVALID
  ∧ result (test_fresh_login Scenario.bad_token "user@example.com" "hunter2") =
      Returns INVALID.
Proof.
  pose proof (C1_unauthorized_is_invalid Scenario.bad_token "BADTOKEN"
                "user@example.com" "hunter2" Scenario.unauthorized
                eq_refl eq_refl (or_introl eq_refl)) as (Ht & Hf & _).
  split; [exact Ht | exact Hf].
Defined.

(** C1 as stated fails for the fresh-login probe: the message
    "401 Unauthorized: rate limit exceeded" contains "401", and the probe
    returns RATE_LIMITED, because its handler looks for the rate-limit
    markers first. *)
Lemma C1_fresh_login_counterexample :
  Text.str_in "401" (exc_str Scenario.unauthorized_and_throttled) = true
  ∧ result (test_fresh_login
              (with_accounts (Raises Scenario.unauthorized_and_throttled) Scenario.no_token)
              "user@example.com" "hunter2") = Returns RATE_LIMITED.
Proof. split; vm_compute; reflexivity. Qed.

(** C2, as amended.  When [get_accounts] raises an exception whose message
    contains "429", "rate limit" or "too many requests", the fresh-login
    probe, reached after a successful [login], returns RATE_LIMITED.  The
    token-validity probe returns RATE_LIMITED unless the lowered message
    also contains "401", "unauthorized" or "authentication", in which case
    it returns INVALID. *)
Theorem C2_throttled_is_rate_limited (w : World) (token email password : string) (e : exn) :
  accounts_answer w = Raises e →
  login_answer w = Returns tt →
  Text.str_in "429" (exc_str e) = true ∨ Text.str_in "rate limit" (exc_str e) = true
  ∨ Text.str_in "too many requests" (exc_str e) = true →
  result (test_fresh_login w email password) = Returns RATE_LIMITED
  ∧ result (test_token_validity w token) =
      Returns (if auth_marked (Text.lower (exc_str e)) then INVALID else RATE_LIMITED).
Proof.
  intros Ha Hl Hm.
  rewrite (token_validity_on_raise w token e Ha).
  rewrite (fresh_login_on_raise w email password e Hl Ha).
  cbn [result snd].
  rewrite token_validity_handler_result, fresh_login_handler_result.
  by rewrite (rate_marked_lower _ Hm).
Qed.

(** C2 at a concrete run: the API answers "429 Too Many Requests". *)
Lemma C2_throttled_is_rate_limited_witness :
  result (test_fresh_login Scenario.throttled_token "user@example.com" "hunter2") =
    Returns RATE_LIMITED
  ∧ result (test_token_validity Scenario.throttled_token "GOODTOKEN") =
      Returns RATE_LIMITED.
Proof.
  exact (C2_throttled_is_rate_limited Scenario.throttled_token "GOODTOKEN"
           "user@example.com" "hunter2" Scenario.throttled
           eq_refl eq_refl (or_introl eq_refl)).
Defined.

(** C2 as stated fails for the token-validity probe: the message
    "429 Too Many Requests: authentication attempts exceeded" contains
    "429", and the probe returns INVALID, because its handler looks for the
    authentication markers first. *)
Lemma C2_token_validity_counterexample :
  Text.str_in "429" (exc_str Scenario.throttled_authentication) = true
  ∧ result (test_token_validity
              (with_accounts (Raises Scenario.throttled_authentication) Scenario.good_token)
              "GOODTOKEN") = Returns INVALID.
Proof. split; vm_compute; reflexivity. Qed.

(** C3, as amended.  On an exception raised by [get_accounts] the two probes
    return the same verdict exactly when the lowered message does not carry
    both an authentication marker ("401", "unauthorized", "authentication")
    and a rate-limit marker ("429", "rate limit", "too many requests"); on a
    message that carries both, the token-validity probe returns INVALID and
    the fresh-login probe RATE_LIMITED. *)
Theorem C3_probes_agree_unless_both_marked (w : World) (token email password : string) (e : exn) :
  accounts_answer w = Raises e →
  login_answer w = Returns tt →
  let both := auth_marked (Text.lower (exc_str e)) && rate_marked (Text.lower (exc_str e)) in
  (both = false ↔
     result (test_token_validity w token) = result (test_fresh_login w email password))
  ∧ (both = true →
       result (test_token_validity w token) = Returns INVALID
       ∧ result (test_fresh_login w email password) = Returns RATE_LIMITED).
Proof.
  intros Ha Hl.
  rewrite (token_validity_on_raise w token e Ha).
  rewrite (fresh_login_on_raise w email password e Hl Ha).
  cbn [result snd].
  rewrite token_validity_handler_result, fresh_login_handler_result.
  destruct (auth_marked _), (rate_marked _); cbn; repeat split; try done.
Qed.

(** C3 at concrete runs: the probes agree on "401 Unauthorized". *)
Lemma C3_probes_agree_unless_both_marked_witness :
  result (test_token_validity Scenario.bad_token "BADTOKEN") =
  result (test_fresh_login Scenario.bad_token "user@example.com" "hunter2").
Proof.
  exact (proj1 (proj1 (C3_probes_agree_unless_both_marked Scenario.bad_token "BADTOKEN"
                         "user@example.com" "hunter2" Scenario.unauthorized
                         eq_refl eq_refl)) eq_refl).
Defined.

(** C3 as stated fails: on the message
    "429 Too Many Requests: authentication attempts exceeded" the
    token-validity probe returns INVALID and the fresh-login probe
    RATE_LIMITED. *)
Lemma C3_probes_differ_counterexample :
  let w := with_accounts (Raises Scenario.throttled_authentication) Scenario.good_token in
  result (test_token_validity w "GOODTOKEN") = Returns INVALID
  ∧ result (test_fresh_login w "user@example.com" "hunter2") = Returns RATE_LIMITED
  ∧ result (test_token_validity w "GOODTOKEN")
    ≠ result (test_fresh_login w "user@example.com" "hunter2").
Proof. split; [|split]; vm_compute; [reflexivity | reflexivity | discriminate]. Qed.

(** ** The probes when [get_accounts] returns *)

(** A handler never answers VALID. *)
Lemma token_validity_handler_not_valid (e : exn) :
  result (token_validity_handler e) ≠ Returns VALID.
Proof. rewrite token_validity_handler_result. by repeat case_match. Qed.

Lemma fresh_login_handler_not_valid (e : exn) :
  result (fresh_login_handler e) ≠ Returns VALID.
Proof. rewrite fresh_login_handler_result. by repeat case_match. Qed.

(** [len] succeeds on the sized values and on no other. *)
Lemma len_sized (v : value) :
  sized v = true → ∃ n, len v = Returns n.
Proof. destruct v; try discriminate; intros _; by eexists. Qed.

(** The [TypeError] of [len] carries none of the markers: both handlers
    file it under INVALID. *)
Lemma len_unsized (v : value) :
  sized v = false →
  ∃ e, len v = Raises e
       ∧ result (token_validity_handler e) = Returns INVALID
       ∧ result (fresh_login_handler e) = Returns INVALID.
Proof.
  destruct v; try discriminate; intros _; eexists; (split; [reflexivity|]);
    split; vm_compute; reflexivity.
Qed.

Lemma dict_truthy (d : gmap string value) :
  truthy (VDict d) = true ↔ d ≠ ∅.
Proof.
  cbn. rewrite negb_true_iff, bool_decide_eq_false. reflexivity.
Qed.

Ltac run_probe :=
  unfold try_except, print, call, lift, mbind, M_bind, mret, M_ret; cbn.

Ltac run_main :=
  unfold asyncio_run, print, call, mbind, M_bind, mret, M_ret;
  cbn -[test_fresh_login test_token_validity print_conclusion check_connectivity
        print_summary print_recommendation main_with_token main_no_token
        run_validity run_fresh_login
        Text.strip Text.take Text.take_last Text.len pretty banner].

Section ProbesOnReturn.
Variable w : World.
Variables token email password : string.

Lemma token_validity_counted (d : gmap string value) (n : nat) :
  accounts_answer w = Returns (VDict d) →
  d ≠ ∅ →
  len (dict_get d "accounts" (VList [])) = Returns n →
  test_token_validity w token =
  (validity_opening token
     ++ [EvPrint ("✅ Token is VALID - Found " +:+ pretty n +:+ " accounts")],
   Returns VALID).
Proof.
  intros Ha Hd Hn. unfold test_token_validity. rewrite Ha.
  apply dict_truthy in Hd. run_probe.
  cbn in Hd. rewrite Hd. run_probe. rewrite Hn. reflexivity.
Qed.

Lemma token_validity_uncounted (d : gmap string value) (e : exn) :
  accounts_answer w = Returns (VDict d) →
  d ≠ ∅ →
  len (dict_get d "accounts" (VList [])) = Raises e →
  test_token_validity w token =
  (validity_opening token ++ trace (token_validity_handler e),
   result (token_validity_handler e)).
Proof.
  intros Ha Hd Hn. unfold test_token_validity. rewrite Ha.
  apply dict_truthy in Hd. run_probe.
  cbn in Hd. rewrite Hd. run_probe. rewrite Hn.
  by destruct (token_validity_handler e).
Qed.

Lemma token_validity_unexpected (v : value) :
  accounts_answer w = Returns v →
  truthy v && is_dict v = false →
  test_token_validity w token =
  (validity_opening token
     ++ [EvPrint "⚠️  Token exists but API returned unexpected format"],
   Returns INVALID).
Proof.
  intros Ha Hv. unfold test_token_validity. rewrite Ha.
  run_probe. rewrite Hv. reflexivity.
Qed.

Hypothesis login_ok : login_answer w = Returns tt.

Lemma fresh_login_counted (d : gmap string value) (n : nat) :
  accounts_answer w = Returns (VDict d) →
  d ≠ ∅ →
  len (dict_get d "accounts" (VList [])) = Returns n →
  test_fresh_login w email password =
  (fresh_login_opening email password
     ++ [EvPrint ("✅ Fresh login WORKS - Found " +:+ pretty n +:+ " accounts")],
   Returns VALID).
Proof.
  intros Ha Hd Hn. unfold test_fresh_login. rewrite login_ok, Ha.
  apply dict_truthy in Hd. run_probe.
  cbn in Hd. rewrite Hd. run_probe. rewrite Hn. reflexivity.
Qed.

Lemma fresh_login_uncounted (d : gmap string value) (e : exn) :
  accounts_answer w = Returns (VDict d) →
  d ≠ ∅ →
  len (dict_get d "accounts" (VList [])) = Raises e →
  test_fresh_login w email password =
  (fresh_login_opening email password ++ trace (fresh_login_handler e),
   result (fresh_login_handler e)).
Proof.
  intros Ha Hd Hn. unfold test_fresh_login. rewrite login_ok, Ha.
  apply dict_truthy in Hd. run_probe.
  cbn in Hd. rewrite Hd. run_probe. rewrite Hn.
  by destruct (fresh_login_handler e).
Qed.

Lemma fresh_login_unexpected (v : value) :
  accounts_answer w = Returns v →
  truthy v && is_dict v = false →
  test_fresh_login w email password =
  (fresh_login_opening email password
     ++ [EvPrint "⚠️  Fresh login succeeded but API returned unexpected format"],
   Returns INVALID).
Proof.
  intros Ha Hv. unfold test_fresh_login. rewrite login_ok, Ha.
  run_probe. rewrite Hv. reflexivity.
Qed.

End ProbesOnReturn.

Lemma lookup_nonempty (d : gmap string value) (k : string) (v : value) :
  d !! k = Some v → d ≠ ∅.
Proof. intros H ->. by rewrite lookup_empty in H. Qed.

(** C4, as amended.  When [get_accounts] returns a dict whose "accounts"
    entry is a list, each probe returns VALID and the count it prints is the
    length of that list. *)
Theorem C4_listed_accounts_are_valid (w : World) (token email password : string)
    (d : gmap string value) (l : list value) :
  accounts_answer w = Returns (VDict d) →
  d !! "accounts" = Some (VList l) →
  test_token_validity w token =
    (validity_opening token
       ++ [EvPrint ("✅ Token is VALID - Found " +:+ pretty (length l) +:+ " accounts")],
     Returns VALID)
  ∧ (login_answer w = Returns tt →
     test_fresh_login w email password =
       (fresh_login_opening email password
          ++ [EvPrint ("✅ Fresh login WORKS - Found " +:+ pretty (length l) +:+ " accounts")],
        Returns VALID)).
Proof.
  intros Ha Hl.
  assert (len (dict_get d "accounts" (VList [])) = Returns (length l)) as Hn
    by (unfold dict_get; by rewrite Hl).
  pose proof (lookup_nonempty _ _ _ Hl) as Hd.
  split; [|intros Hlogin].
  - by apply token_validity_counted with d.
  - by apply fresh_login_counted with d.
Qed.

(** C4 at a concrete run: three accounts are listed, three are reported. *)
Lemma C4_listed_accounts_are_valid_witness :
  test_token_validity Scenario.good_token "GOODTOKEN" =
    (validity_opening "GOODTOKEN" ++ [EvPrint "✅ Token is VALID - Found 3 accounts"],
     Returns VALID)
  ∧ test_fresh_login Scenario.good_token "user@example.com" "hunter2" =
      (fresh_login_opening "user@example.com" "hunter2"
         ++ [EvPrint "✅ Fresh login WORKS - Found 3 accounts"],
       Returns VALID).
Proof.
  pose proof (C4_listed_accounts_are_valid Scenario.good_token "GOODTOKEN"
                "user@example.com" "hunter2"
                {[ "accounts" := VList [VInt 1; VInt 2; VInt 3] ]}
                [VInt 1; VInt 2; VInt 3] eq_refl eq_refl) as [Ht Hf].
  split; [exact Ht | exact (Hf eq_refl)].
Defined.

(** C4 as stated fails: [{"accounts": None}] is a mapping with an "accounts"
    key, returned without an exception, and the validity probe returns
    INVALID, not VALID; no count is printed.  [len(None)] raises a
    [TypeError] inside the [try], and the handler files it under the
    generic failures. *)
Lemma C4_unsized_accounts_counterexample :
  let d : gmap string value := {[ "accounts" := VNone ]} in
  let w := with_accounts (Returns (VDict d)) Scenario.good_token in
  accounts_answer w = Returns (VDict d)
  ∧ d !! "accounts" = Some VNone
  ∧ test_token_validity w "GOODTOKEN" =
      (validity_opening "GOODTOKEN"
         ++ [EvPrint "❌ Token test failed with error: object of type 'NoneType' has no len()";
             EvPrint "   Error type: TypeError"],
       Returns INVALID).
Proof. repeat split; vm_compute; reflexivity. Qed.

(** C9, as amended.  After a successful [login], a probe returns VALID
    exactly when [get_accounts] returns a non-empty dict whose "accounts"
    entry, if there is one, has a length (a list, a string or a dict).  A
    non-empty dict without an "accounts" entry is VALID with a count of 0;
    an empty dict and a value that is no dict are INVALID although nothing
    was raised; a non-empty dict whose "accounts" entry has no length is
    INVALID as well. *)
Theorem C9_valid_iff_counted_dict (w : World) (token email password : string) :
  login_answer w = Returns tt →
  let counted :=
    ∃ d, accounts_answer w = Returns (VDict d) ∧ d ≠ ∅
         ∧ sized (dict_get d "accounts" (VList [])) = true in
  (result (test_token_validity w token) = Returns VALID ↔ counted)
  ∧ (result (test_fresh_login w email password) = Returns VALID ↔ counted)
  ∧ (∀ d, accounts_answer w = Returns (VDict d) → d ≠ ∅ → d !! "accounts" = None →
       test_token_validity w token =
         (validity_opening token ++ [EvPrint "✅ Token is VALID - Found 0 accounts"],
          Returns VALID)
       ∧ test_fresh_login w email password =
           (fresh_login_opening email password
              ++ [EvPrint "✅ Fresh login WORKS - Found 0 accounts"],
            Returns VALID))
  ∧ (∀ v, accounts_answer w = Returns v → v = VDict ∅ ∨ is_dict v = false →
       test_token_validity w token =
         (validity_opening token
            ++ [EvPrint "⚠️  Token exists but API returned unexpected format"],
          Returns INVALID)
       ∧ test_fresh_login w email password =
           (fresh_login_opening email password
              ++ [EvPrint "⚠️  Fresh login succeeded but API returned unexpected format"],
            Returns INVALID))
  ∧ (∀ d, accounts_answer w = Returns (VDict d) → d ≠ ∅ →
       sized (dict_get d "accounts" (VList [])) = false →
       result (test_token_validity w token) = Returns INVALID
       ∧ result (test_fresh_login w email password) = Returns INVALID).
Proof.
  intros Hlogin counted.
  assert (counted →
          result (test_token_validity w token) = Returns VALID
          ∧ result (test_fresh_login w email password) = Returns VALID) as Hyes.
  { intros (d & Ha & Hd & Hs). destruct (len_sized _ Hs) as [n Hn].
    rewrite (token_validity_counted w token d n Ha Hd Hn).
    by rewrite (fresh_login_counted w email password Hlogin d n Ha Hd Hn). }
  assert (∀ d, accounts_answer w = Returns (VDict d) → d ≠ ∅ →
               sized (dict_get d "accounts" (VList [])) = false →
               result (test_token_validity w token) = Returns INVALID
               ∧ result (test_fresh_login w email password) = Returns INVALID) as Hno.
  { intros d Ha Hd Hs. destruct (len_unsized _ Hs) as (e & He & Ht & Hf).
    rewrite (token_validity_uncounted w token d e Ha Hd He).
    by rewrite (fresh_login_uncounted w email password Hlogin d e Ha Hd He). }
  assert (∀ v, accounts_answer w = Returns v → v = VDict ∅ ∨ is_dict v = false →
               truthy v && is_dict v = false) as Hfmt.
  { intros v _ [-> | Hv]; [reflexivity | rewrite Hv; apply andb_false_r]. }
  assert (¬ counted →
          result (test_token_validity w token) ≠ Returns VALID
          ∧ result (test_fresh_login w email password) ≠ Returns VALID) as Helse.
  { intros Hc. destruct (accounts_answer w) as [v|e] eqn:Ha.
    - destruct (truthy v && is_dict v) eqn:Hv.
      + apply andb_true_iff in Hv as [Htr Hdict].
        destruct v as [| | | | | |d]; try discriminate.
        apply dict_truthy in Htr.
        destruct (sized (dict_get d "accounts" (VList []))) eqn:Hs.
        * destruct Hc. by exists d.
        * destruct (Hno d eq_refl Htr Hs) as [-> ->]. by split.
      + rewrite (token_validity_unexpected w token v Ha Hv).
        by rewrite (fresh_login_unexpected w email password Hlogin v Ha Hv).
    - rewrite (token_validity_on_raise w token e Ha).
      rewrite (fresh_login_on_raise w email password e Hlogin Ha).
      split; [apply token_validity_handler_not_valid
             | apply fresh_login_handler_not_valid]. }
  assert (counted ∨ ¬ counted) as Hdec.
  { destruct (accounts_answer w) as [v|e] eqn:Ha; [|right; by intros (d & ? & _)].
    destruct v as [| | | | | |d]; try (right; by intros (d' & ? & _)).
    destruct (decide (d = ∅)) as [->|Hd].
    { right. intros (d' & [= <-] & ? & _). done. }
    destruct (sized (dict_get d "accounts" (VList []))) eqn:Hs.
    - left. by exists d.
    - right. intros (d' & [= <-] & _ & Hs'). congruence. }
  split; [|split; [|split; [|split]]].
  - split; [|apply Hyes]. intros H. destruct Hdec as [|Hn]; [done|].
    by destruct (Helse Hn).
  - split; [|apply Hyes]. intros H. destruct Hdec as [|Hn]; [done|].
    by destruct (Helse Hn).
  - intros d Ha Hd Hk.
    assert (len (dict_get d "accounts" (VList [])) = Returns 0) as Hn
      by (unfold dict_get; by rewrite Hk).
    rewrite (token_validity_counted w token d 0 Ha Hd Hn).
    by rewrite (fresh_login_counted w email password Hlogin d 0 Ha Hd Hn).
  - intros v Ha Hv. pose proof (Hfmt v Ha Hv) as Hb.
    rewrite (token_validity_unexpected w token v Ha Hb).
    by rewrite (fresh_login_unexpected w email password Hlogin v Ha Hb).
  - exact Hno.
Qed.

(** C9 at a concrete run: a dict that only holds "errors" is VALID, with a
    count of 0. *)
Lemma C9_valid_iff_counted_dict_witness :
  let w := with_accounts (Returns Scenario.other_payload) Scenario.good_token in
  test_token_validity w "GOODTOKEN" =
    (validity_opening "GOODTOKEN" ++ [EvPrint "✅ Token is VALID - Found 0 accounts"],
     Returns VALID).
Proof.
  intros w.
  pose proof (C9_valid_iff_counted_dict w "GOODTOKEN" "user@example.com" "hunter2"
                eq_refl) as (_ & _ & H0 & _).
  refine (proj1 (H0 {[ "errors" := VList [] ]} eq_refl _ eq_refl)).
  intros H. apply (f_equal (λ m : gmap string value, m !! "errors")) in H.
  vm_compute in H. discriminate H.
Defined.

(** C9 as stated fails: [{"accounts": None}] is a truthy dict returned
    without an exception, and both probes return INVALID, because [len(None)]
    raises a [TypeError] that the handler files under INVALID. *)
Lemma C9_truthy_dict_counterexample :
  let w := with_accounts (Returns Scenario.null_accounts) Scenario.good_token in
  accounts_answer w = Returns Scenario.null_accounts
  ∧ truthy Scenario.null_accounts && is_dict Scenario.null_accounts = true
  ∧ result (test_token_validity w "GOODTOKEN") = Returns INVALID
  ∧ result (test_fresh_login w "user@example.com" "hunter2") = Returns INVALID.
Proof. repeat split; vm_compute; reflexivity. Qed.

(** ** The shape of a probe's trace *)

Lemma occurs_app (p : event → bool) (t1 t2 : list event) :
  occurs p (t1 ++ t2) = occurs p t1 || occurs p t2.
Proof. apply existsb_app. Qed.

Lemma occurs_prints (p : event → bool) (t : list event) :
  (∀ s, p (EvPrint s) = false) →
  forallb is_print t = true →
  occurs p t = false.
Proof.
  intros Hp. induction t as [|ev t IH]; [done|].
  cbn. intros [Hev Ht]%andb_true_iff.
  destruct ev; try discriminate. rewrite Hp. by apply IH.
Qed.

Lemma token_validity_handler_prints (e : exn) :
  forallb is_print (trace (token_validity_handler e)) = true.
Proof. unfold token_validity_handler. by repeat case_match. Qed.

Lemma fresh_login_handler_prints (e : exn) :
  forallb is_print (trace (fresh_login_handler e)) = true.
Proof. unfold fresh_login_handler. by repeat case_match. Qed.

Lemma handler_returns_token (e : exn) :
  ∃ r, result (token_validity_handler e) = Returns r.
Proof. rewrite token_validity_handler_result. by eexists. Qed.

Lemma handler_returns_fresh (e : exn) :
  ∃ r, result (fresh_login_handler e) = Returns r.
Proof. rewrite fresh_login_handler_result. by eexists. Qed.

(** The validity probe always returns; after its opening it only prints. *)
Lemma token_validity_shape (w : World) (token : string) :
  ∃ tail r,
    test_token_validity w token = (validity_opening token ++ tail, Returns r)
    ∧ forallb is_print tail = true.
Proof.
  destruct (accounts_answer w) as [v|e] eqn:Ha.
  - destruct (truthy v && is_dict v) eqn:Hv.
    + apply andb_true_iff in Hv as [Htr Hdict].
      destruct v as [| | | | | |d]; try discriminate.
      apply dict_truthy in Htr.
      destruct (len (dict_get d "accounts" (VList []))) as [n|e] eqn:Hn.
      * rewrite (token_validity_counted w token d n Ha Htr Hn). by eexists _, _.
      * rewrite (token_validity_uncounted w token d e Ha Htr Hn).
        destruct (handler_returns_token e) as [r ->].
        eexists _, _. split; [reflexivity | apply token_validity_handler_prints].
    + rewrite (token_validity_unexpected w token v Ha Hv). by eexists _, _.
  - rewrite (token_validity_on_raise w token e Ha).
    destruct (handler_returns_token e) as [r ->].
    eexists _, _. split; [reflexivity | apply token_validity_handler_prints].
Qed.

(** The fresh-login probe always returns; it builds a client without a
    token, logs in, calls [get_accounts] if the login went through, and
    from then on only prints. *)
Lemma fresh_login_shape (w : World) (email password : string) :
  ∃ called tail r,
    test_fresh_login w email password =
      ([EvPrint (nl +:+ "🔍 Testing fresh login..."); EvNewClient None;
        EvLogin email password] ++ called ++ tail, Returns r)
    ∧ (called = [EvGetAccounts] ∨ called = [])
    ∧ forallb is_print tail = true.
Proof.
  destruct (login_answer w) as [[]|e'] eqn:Hl.
  - exists [EvGetAccounts].
    destruct (accounts_answer w) as [v|e] eqn:Ha.
    + destruct (truthy v && is_dict v) eqn:Hv.
      * apply andb_true_iff in Hv as [Htr Hdict].
        destruct v as [| | | | | |d]; try discriminate.
        apply dict_truthy in Htr.
        destruct (len (dict_get d "accounts" (VList []))) as [n|e] eqn:Hn.
        -- rewrite (fresh_login_counted w email password Hl d n Ha Htr Hn).
           eexists _, _. split; [reflexivity | by split; [left|]].
        -- rewrite (fresh_login_uncounted w email password Hl d e Ha Htr Hn).
           destruct (handler_returns_fresh e) as [r ->].
           eexists _, _. split; [reflexivity | split; [by left|]].
           apply fresh_login_handler_prints.
      * rewrite (fresh_login_unexpected w email password Hl v Ha Hv).
        eexists _, _. split; [reflexivity | by split; [left|]].
    + rewrite (fresh_login_on_raise w email password e Hl Ha).
      destruct (handler_returns_fresh e) as [r ->].
      eexists _, _. split; [reflexivity | split; [by left|]].
      apply fresh_login_handler_prints.
  - exists []. rewrite (fresh_login_on_login_raise w email password e' Hl).
    destruct (handler_returns_fresh e') as [r ->].
    eexists _, _. split; [reflexivity | split; [by right|]].
    apply fresh_login_handler_prints.
Qed.

(** ** [main] *)

Section Main.
Variable w : World.

Let email := Text.strip (typed_email w).
Let password := typed_password w.

(** [asyncio.run(..)] inside [main]: where the function exists the
    coroutine runs; where it does not, the lookup raises and nothing else
    happens. *)
Lemma run_validity_on (token : string) :
  has_asyncio_run w = true →
  run_validity w token =
  (EvAsyncioRun (TestTokenValidity token) :: trace (test_token_validity w token),
   result (test_token_validity w token)).
Proof.
  intros H. unfold run_validity, asyncio_dot_run, asyncio_run. rewrite H.
  unfold call, mbind, M_bind. by destruct (test_token_validity w token).
Qed.

Lemma run_validity_off (token : string) :
  has_asyncio_run w = false →
  run_validity w token = ([], Raises no_asyncio_run).
Proof. intros H. unfold run_validity, asyncio_dot_run. by rewrite H. Qed.

Lemma run_fresh_login_on (e p : string) :
  has_asyncio_run w = true →
  run_fresh_login w e p =
  (EvAsyncioRun (TestFreshLogin e p) :: trace (test_fresh_login w e p),
   result (test_fresh_login w e p)).
Proof.
  intros H. unfold run_fresh_login, asyncio_dot_run, asyncio_run. rewrite H.
  unfold call, mbind, M_bind. by destruct (test_fresh_login w e p).
Qed.

Lemma run_fresh_login_off (e p : string) :
  has_asyncio_run w = false →
  run_fresh_login w e p = ([], Raises no_asyncio_run).
Proof. intros H. unfold run_fresh_login, asyncio_dot_run. by rewrite H. Qed.

Lemma print_header_run :
  ∃ t, print_header w = (t, Returns tt) ∧ forallb is_print t = true.
Proof. by eexists. Qed.

(** The no-token branch when the user just presses Enter. *)
Lemma main_no_token_skipped :
  Text.nonempty email = false →
  main_no_token w = (no_token_prompt, Returns tt).
Proof.
  unfold email. intros H. unfold main_no_token. run_main. by rewrite H.
Qed.

(** The no-token branch when the user types an address and the fresh-login
    probe returns: the password is read, the probe runs, and one closing
    line is printed. *)
Lemma main_no_token_closing (t : list event) (r : option bool) :
  Text.nonempty email = true →
  run_fresh_login w email password = (t, Returns r) →
  main_no_token w =
  (no_token_prompt ++ [EvGetpass "Enter your Monarch password: "]
     ++ t ++ [EvPrint (fresh_login_closing r)],
   Returns tt).
Proof.
  unfold email, password. intros H E.
  unfold main_no_token. run_main. rewrite H. run_main. rewrite E.
  destruct r as [[|]|]; cbn; rewrite <- ?app_assoc; reflexivity.
Qed.

(** The no-token branch when [asyncio.run] raises: the password has been
    read, nothing follows. *)
Lemma main_no_token_stopped (t : list event) (e : exn) :
  Text.nonempty email = true →
  run_fresh_login w email password = (t, Raises e) →
  main_no_token w =
  (no_token_prompt ++ [EvGetpass "Enter your Monarch password: "] ++ t, Raises e).
Proof.
  unfold email, password. intros H E.
  unfold main_no_token. run_main. rewrite H. run_main. rewrite E. reflexivity.
Qed.

(** The token branch: the probe, its conclusion, the reachability probe, the
    summary and the recommendation, in this order. *)
Lemma main_with_token_run (token : option string) (t : list event) (r : option bool) :
  run_validity w (token_text token) = (t, Returns r) →
  main_with_token w token =
  ([EvPrint (nl +:+ banner); EvPrint "CHECK 2: Token Validity"; EvPrint banner]
     ++ t ++ trace (print_conclusion r) ++ trace (check_connectivity w)
     ++ trace (print_summary token r) ++ trace (print_recommendation token r),
   Returns tt).
Proof.
  intros E. unfold main_with_token. run_main. rewrite E.
  destruct r as [[|]|], (token_truthy token) eqn:Ht;
    unfold print_summary, print_findings, print_recommendation; rewrite ?Ht;
    cbn; rewrite <- ?app_assoc; reflexivity.
Qed.

(** The token branch when [asyncio.run] raises: the banner of the second
    check is the last thing printed. *)
Lemma main_with_token_stopped (token : option string) (t : list event) (e : exn) :
  run_validity w (token_text token) = (t, Raises e) →
  main_with_token w token =
  ([EvPrint (nl +:+ banner); EvPrint "CHECK 2: Token Validity"; EvPrint banner] ++ t,
   Raises e).
Proof.
  intros E. unfold main_with_token. run_main. rewrite E. reflexivity.
Qed.

End Main.

Section MainRuns.
Variable w : World.

Lemma main_without_token :
  token_truthy (stored_token w) = false →
  main w = (trace (print_header w) ++ [EvLoadToken] ++ trace (main_no_token w),
            result (main_no_token w)).
Proof.
  intros H. unfold main. run_main. rewrite H.
  by destruct (main_no_token w).
Qed.

Lemma main_on_token (t : list event) (r : option bool) :
  token_truthy (stored_token w) = true →
  run_validity w (token_text (stored_token w)) = (t, Returns r) →
  main w =
  (trace (print_header w) ++ [EvLoadToken]
     ++ token_announced (token_text (stored_token w))
     ++ t ++ trace (print_conclusion r) ++ trace (check_connectivity w)
     ++ trace (print_summary (stored_token w) r)
     ++ trace (print_recommendation (stored_token w) r),
   Returns tt).
Proof.
  intros H E. unfold main. run_main. rewrite H.
  rewrite (main_with_token_run w _ t r E). reflexivity.
Qed.

Lemma main_on_token_stopped (t : list event) (e : exn) :
  token_truthy (stored_token w) = true →
  run_validity w (token_text (stored_token w)) = (t, Raises e) →
  main w =
  (trace (print_header w) ++ [EvLoadToken]
     ++ token_announced (token_text (stored_token w)) ++ t,
   Raises e).
Proof.
  intros H E. unfold main. run_main. rewrite H.
  rewrite (main_with_token_stopped w _ t e E). reflexivity.
Qed.

End MainRuns.

Lemma occurs_cons (p : event → bool) (ev : event) (t : list event) :
  occurs p (ev :: t) = p ev || occurs p t.
Proof. reflexivity. Qed.

Section RunFacts.
Variable w : World.

Let email := Text.strip (typed_email w).
Let password := typed_password w.

(** A run on the no-token branch, case by case: the address is blank; or
    it is not and [asyncio.run] exists; or it is not and [asyncio.run] is
    missing. *)
Lemma main_no_token_cases :
  (Text.nonempty email = false
   ∧ main_no_token w = (no_token_prompt, Returns tt))
  ∨ (Text.nonempty email = true ∧ has_asyncio_run w = true
     ∧ ∃ t r,
         test_fresh_login w email password = (t, Returns r)
         ∧ main_no_token w =
             (no_token_prompt
                ++ [EvGetpass "Enter your Monarch password: ";
                    EvAsyncioRun (TestFreshLogin email password)]
                ++ t ++ [EvPrint (fresh_login_closing r)],
              Returns tt))
  ∨ (Text.nonempty email = true ∧ has_asyncio_run w = false
     ∧ main_no_token w =
         (no_token_prompt ++ [EvGetpass "Enter your Monarch password: "],
          Raises no_asyncio_run)).
Proof.
  subst email password.
  destruct (Text.nonempty (Text.strip (typed_email w))) eqn:He.
  - right. destruct (has_asyncio_run w) eqn:Hr.
    + left. split; [done|]. split; [done|].
      destruct (fresh_login_shape w (Text.strip (typed_email w)) (typed_password w))
        as (c & tail & r & E & _ & _).
      exists (trace (test_fresh_login w (Text.strip (typed_email w)) (typed_password w))), r.
      split; [by rewrite E|].
      rewrite (main_no_token_closing w
                 (EvAsyncioRun (TestFreshLogin (Text.strip (typed_email w)) (typed_password w))
                    :: trace (test_fresh_login w (Text.strip (typed_email w))
                                (typed_password w))) r He).
      * reflexivity.
      * rewrite (run_fresh_login_on w _ _ Hr). rewrite E. reflexivity.
    + right. split; [done|]. split; [done|].
      rewrite (main_no_token_stopped w [] no_asyncio_run He
                 (run_fresh_login_off w _ _ Hr)).
      by rewrite app_nil_r.
  - left. split; [done|]. by apply main_no_token_skipped.
Qed.

(** The no-token branch starts with its four lines and the prompt. *)
Lemma main_no_token_prompts :
  ∃ rest, trace (main_no_token w) = no_token_prompt ++ rest.
Proof.
  destruct main_no_token_cases
    as [[_ ->] | [(_ & _ & t & r & _ & ->) | (_ & _ & ->)]]; cbn [trace fst].
  - exists []. by rewrite app_nil_r.
  - by eexists.
  - by eexists.
Qed.

(** A run on the no-token branch never starts the validity probe and never
    presents a stored token to the API. *)
Lemma main_no_token_quiet (p : event → bool) :
  (∀ s, p (EvPrint s) = false) →
  p (EvInput (nl +:+ "Enter your Monarch email (or press Enter to skip): ")) = false →
  p (EvGetpass "Enter your Monarch password: ") = false →
  (∀ e pw, p (EvAsyncioRun (TestFreshLogin e pw)) = false) →
  p (EvNewClient None) = false →
  (∀ e pw, p (EvLogin e pw) = false) →
  p EvGetAccounts = false →
  occurs p (trace (main_no_token w)) = false.
Proof.
  intros Hprint Hin Hgp Hrun Hnew Hlogin Hget.
  destruct main_no_token_cases
    as [[_ ->] | [(_ & _ & t & r & E & ->) | (_ & _ & ->)]]; cbn [trace fst].
  - cbn. by rewrite ?Hprint, ?Hin.
  - subst email password.
    destruct (fresh_login_shape w (Text.strip (typed_email w)) (typed_password w))
      as (called & tail & r' & E' & Hc & Ht).
    rewrite E' in E. injection E as <- <-.
    rewrite !occurs_app, !occurs_cons, !occurs_app.
    rewrite (occurs_prints p tail Hprint Ht).
    destruct Hc as [-> | ->]; cbn;
      by rewrite ?Hprint, ?Hin, ?Hgp, ?Hrun, ?Hnew, ?Hlogin, ?Hget.
  - cbn. by rewrite ?Hprint, ?Hin, ?Hgp.
Qed.

(** The validity probe as [main] runs it, case by case. *)
Lemma run_validity_cases (token : string) :
  (has_asyncio_run w = true
   ∧ ∃ tail r,
       test_token_validity w token = (validity_opening token ++ tail, Returns r)
       ∧ run_validity w token =
           (EvAsyncioRun (TestTokenValidity token) :: validity_opening token ++ tail,
            Returns r)
       ∧ forallb is_print tail = true)
  ∨ (has_asyncio_run w = false
     ∧ run_validity w token = ([], Raises no_asyncio_run)).
Proof.
  destruct (has_asyncio_run w) eqn:Hr.
  - left. split; [done|].
    destruct (token_validity_shape w token) as (tail & r & E & Ht).
    exists tail, r. split; [done|]. split; [|done].
    rewrite (run_validity_on w token Hr). by rewrite E.
  - right. split; [done|]. by apply run_validity_off.
Qed.

(** A run on the token branch never starts the fresh-login probe. *)
Lemma main_on_token_no_fresh_login :
  token_truthy (stored_token w) = true →
  occurs is_fresh_login_run (trace (main w)) = false.
Proof.
  intros H.
  destruct (run_validity_cases (token_text (stored_token w)))
    as [(_ & tail & r & _ & E & Ht) | (_ & E)].
  - rewrite (main_on_token w _ r H E). cbn [trace fst].
    change (EvAsyncioRun ?c :: ?l) with ([EvAsyncioRun c] ++ l).
    rewrite !occurs_app.
    rewrite (occurs_prints is_fresh_login_run tail (λ _, eq_refl) Ht).
    destruct r as [[|]|]; unfold print_summary, print_findings; rewrite H;
      reflexivity.
  - rewrite (main_on_token_stopped w _ _ H E). reflexivity.
Qed.

(** What a run without a stored token does and does not do. *)
Lemma main_without_token_facts :
  token_truthy (stored_token w) = false →
  main w = (trace (print_header w) ++ [EvLoadToken] ++ trace (main_no_token w),
            result (main_no_token w))
  ∧ (∃ rest, trace (main_no_token w) = no_token_prompt ++ rest)
  ∧ occurs is_validity_run (trace (main w)) = false
  ∧ occurs is_token_use (trace (main w)) = false
  ∧ occurs is_fresh_login_run (trace (main w))
    = Text.nonempty (Text.strip (typed_email w)) && has_asyncio_run w.
Proof.
  intros H. rewrite (main_without_token w H).
  split; [reflexivity|]. split; [apply main_no_token_prompts|].
  cbn [trace fst]. rewrite !occurs_app.
  rewrite !main_no_token_quiet by done.
  split; [done|]. split; [done|].
  pose proof main_no_token_cases as Hc. subst email password.
  destruct Hc
    as [[-> ->] | [(-> & -> & t & r & _ & ->) | (-> & -> & ->)]]; cbn [trace fst].
  - reflexivity.
  - rewrite !occurs_app. reflexivity.
  - reflexivity.
Qed.

End RunFacts.

(** ** The claims about a whole run *)

(** C5.  When the credential store yields no token (nothing, or an empty
    string), [main] goes from [load_token] straight to its no-token branch:
    it prints that no token was found and asks for the address.  The
    validity probe is never started and no stored token is presented to the
    API; the fresh-login probe is started if the stripped address is not
    empty (and [asyncio.run] exists).  Conversely, a run that starts the
    fresh-login probe is a run without a stored token. *)
Theorem C5_no_token_goes_to_fresh_login (w : World) :
  (token_truthy (stored_token w) = false →
     main w = (trace (print_header w) ++ [EvLoadToken] ++ trace (main_no_token w),
               result (main_no_token w))
     ∧ (∃ rest, trace (main_no_token w) = no_token_prompt ++ rest)
     ∧ occurs is_validity_run (trace (main w)) = false
     ∧ occurs is_token_use (trace (main w)) = false
     ∧ occurs is_fresh_login_run (trace (main w))
       = Text.nonempty (Text.strip (typed_email w)) && has_asyncio_run w)
  ∧ (occurs is_fresh_login_run (trace (main w)) = true →
     token_truthy (stored_token w) = false).
Proof.
  split.
  - apply main_without_token_facts.
  - intros H. destruct (token_truthy (stored_token w)) eqn:Ht; [|done].
    by rewrite (main_on_token_no_fresh_login w Ht) in H.
Qed.

(** C5 at a concrete run: nothing is stored and the user types an address. *)
Lemma C5_no_token_goes_to_fresh_login_witness :
  occurs is_validity_run (trace (main Scenario.no_token)) = false
  ∧ occurs is_fresh_login_run (trace (main Scenario.no_token)) = true
  ∧ token_truthy (stored_token Scenario.no_token) = false.
Proof.
  pose proof (C5_no_token_goes_to_fresh_login Scenario.no_token) as [Hno Hfresh].
  destruct (Hno eq_refl) as (_ & _ & Hv & _ & Hf).
  split; [exact Hv | split; [exact Hf | exact (Hfresh eq_refl)]].
Defined.

(** Every run of the script ends with an exception at the top level: the
    one that left [main], or the one raised when the [None] that [main]
    returned is handed over in place of a coroutine.  The script adds no
    effect to those of [main]. *)
Lemma script_always_raises (w : World) :
  ∃ e, script w = (trace (main w), Raises e).
Proof.
  unfold script. destruct (main w) as [t [[]|e]]; cbn [trace fst].
  - destruct (has_asyncio_run w); unfold as_coroutine; cbn; rewrite app_nil_r;
      by eexists.
  - destruct (has_asyncio_run w); by exists e.
Qed.

Lemma script_exit_status (w : World) : exit_status (script w) = 1%Z.
Proof.
  destruct (script_always_raises w) as (e & E).
  unfold exit_status. by rewrite E.
Qed.

(** C6, on the run with a good stored token.  [main] prints its report and
    returns; the last line of the file then hands the returned [None] to
    [asyncio.run], which raises [ValueError], and the interpreter exits
    with status 1, not 0. *)
Theorem C6_script_exits_with_status_1 :
  result (main Scenario.good_token) = Returns tt
  ∧ result (script Scenario.good_token)
    = Raises (Exn "ValueError" "a coroutine was expected, got None")
  ∧ trace (script Scenario.good_token) = trace (main Scenario.good_token)
  ∧ exit_status (script Scenario.good_token) = 1%Z.
Proof. repeat split; vm_compute; reflexivity. Qed.

Lemma printed_app (t1 t2 : list event) :
  printed (t1 ++ t2) = printed t1 ++ printed t2.
Proof. apply omap_app. Qed.

(** C7.  With a stored token and the verdict [r] that
    [asyncio.run(test_token_validity(token))] hands to [main], the output of
    [main] is, in this order: the title and the token lines, the lines of
    the probe, the conclusion block chosen by [r], the reachability report,
    the summary, and the recommendation chosen by [r].  VALID gives "valid
    and working" and the advice to check the dashboard scripts, INVALID
    gives "expired or invalid" and the advice to run login_setup.py,
    RATE_LIMITED gives the advice to wait 30-60 minutes and then run
    login_setup.py. *)
Theorem C7_decision_table (w : World) (r : option bool) :
  token_truthy (stored_token w) = true →
  result (run_validity w (token_text (stored_token w))) = Returns r →
  printed (trace (main w)) =
    printed (trace (print_header w))
      ++ printed (token_announced (token_text (stored_token w)))
      ++ printed (trace (test_token_validity w (token_text (stored_token w))))
      ++ printed (trace (print_conclusion r))
      ++ printed (trace (check_connectivity w))
      ++ printed (trace (print_summary (stored_token w) r))
      ++ [nl +:+ banner; "RECOMMENDED ACTION"; banner;
          recommended_action (stored_token w) r]
  ∧ match r with
    | Some true =>
        printed (trace (print_conclusion r))
          = [nl +:+ "✅ CONCLUSION: Token is valid and working!";
             "   → Authentication is working correctly";
             "   → Issue may be in how the dashboard scripts call the API"]
        ∧ recommended_action (stored_token w) r
          = "→ Token is valid - check dashboard scripts for other issues"
    | Some false =>
        printed (trace (print_conclusion r))
          = [nl +:+ "❌ CONCLUSION: Token is expired or invalid";
             "   → Need to re-authenticate";
             "   → Run: python login_setup.py";
             nl +:+ "   Since web login works, this suggests:";
             "   • Token may have expired (tokens typically last 30 days)";
             "   • Token format may have changed";
             "   • API may require re-authentication"]
        ∧ recommended_action (stored_token w) r
          = "→ Token expired - run: python login_setup.py"
    | None =>
        printed (trace (print_conclusion r))
          = [nl +:+ "⏰ CONCLUSION: Rate limited - cannot determine token validity";
             "   → Wait 30-60 minutes";
             "   → Then run: python login_setup.py";
             nl +:+ "   Since web login works, this suggests:";
             "   • Too many API attempts triggered rate limiting";
             "   • Web interface may have different rate limits";
             "   • API has stricter rate limiting than web"]
        ∧ recommended_action (stored_token w) r
          = "→ Rate limited - wait 30-60 minutes, then run: python login_setup.py"
    end.
Proof.
  intros H Hr.
  destruct (run_validity_cases w (token_text (stored_token w)))
    as [(_ & tail & r' & Et & E & _) | (_ & E)]; rewrite E in Hr; cbn in Hr;
    [injection Hr as -> | discriminate].
  split.
  - rewrite (main_on_token w _ r H E). cbn [trace fst]. rewrite Et.
    change (EvAsyncioRun ?c :: ?l) with ([EvAsyncioRun c] ++ l).
    cbn [trace fst]. rewrite !printed_app, <- !app_assoc. reflexivity.
  - unfold recommended_action. rewrite H. by destruct r as [[|]|].
Qed.

(** C7 at two concrete runs: the accepted token is reported as valid and
    working, the rejected one as expired or invalid. *)
Lemma C7_decision_table_witness :
  (Text.str_in "valid and working"
     (default EmptyString (head (printed (trace (print_conclusion VALID))))) = true
   ∧ last (printed (trace (main Scenario.good_token)))
     = Some "→ Token is valid - check dashboard scripts for other issues")
  ∧ (Text.str_in "expired or invalid"
       (default EmptyString (head (printed (trace (print_conclusion INVALID))))) = true
     ∧ last (printed (trace (main Scenario.bad_token)))
       = Some "→ Token expired - run: python login_setup.py").
Proof.
  pose proof (C7_decision_table Scenario.good_token VALID eq_refl eq_refl)
    as [E1 [C1 A1]].
  pose proof (C7_decision_table Scenario.bad_token INVALID eq_refl eq_refl)
    as [E2 [C2 A2]].
  split; split.
  - rewrite C1. vm_compute. reflexivity.
  - rewrite E1, A1. vm_compute. reflexivity.
  - rewrite C2. vm_compute. reflexivity.
  - rewrite E2, A2. vm_compute. reflexivity.
Defined.

Lemma report_kind_reachable (rest : string) :
  report_kind ("✅ API endpoint reachable (Status: " +:+ rest) = Some Reachable.
Proof.
  unfold report_kind.
  rewrite (prefix_app "✅ API endpoint reachable (Status: "). reflexivity.
Qed.

Lemma report_kind_check_failed (rest : string) :
  report_kind ("⚠️  API connectivity check failed: " +:+ rest) = Some CheckFailed.
Proof.
  unfold report_kind.
  rewrite (prefix_app "⚠️  API connectivity check failed: "). reflexivity.
Qed.

(** C8.  The reachability probe issues one GET, to
    https://api.monarchmoney.com with a timeout of 5 seconds, and then
    prints one report line.  The line tells which of the four outcomes
    occurred: a response (whatever its status), a timeout, a connection
    error that is no timeout, or any other exception. *)
Theorem C8_reachability_probe (w : World) :
  (∃ before,
     check_connectivity w =
       (before ++ [EvHttpGet "https://api.monarchmoney.com" 5;
                   EvPrint (reachability_report (http w))],
        Returns tt)
     ∧ forallb is_print before = true)
  ∧ count is_http_get (trace (check_connectivity w)) = 1
  ∧ report_kind (reachability_report (http w)) = Some (reachability (http w)).
Proof.
  split; [|split].
  - by eexists [_; _; _].
  - reflexivity.
  - destruct (http w) as [status | e [|] [|]]; cbn [reachability reachability_report].
    + apply report_kind_reachable.
    + reflexivity.
    + reflexivity.
    + reflexivity.
    + apply report_kind_check_failed.
Qed.

(** C10.  A run whose stored token is the empty string is the run with no
    stored token, event for event: it goes from [load_token] to the
    no-token branch, prints that no token was found and asks for the
    address, never starts the validity probe and never presents the token
    to the API; it starts the fresh-login probe under the same condition,
    a stripped address that is not empty (and [asyncio.run] present). *)
Theorem C10_empty_token_is_no_token (w : World) :
  let stored_empty := with_token (Some EmptyString) w in
  let stored_none := with_token None w in
  main stored_empty = main stored_none
  ∧ main stored_empty =
      (trace (print_header stored_empty) ++ [EvLoadToken]
         ++ trace (main_no_token stored_empty),
       result (main_no_token stored_empty))
  ∧ (∃ rest, trace (main_no_token stored_empty) = no_token_prompt ++ rest)
  ∧ occurs is_validity_run (trace (main stored_empty)) = false
  ∧ occurs is_token_use (trace (main stored_empty)) = false
  ∧ occurs is_fresh_login_run (trace (main stored_empty))
    = Text.nonempty (Text.strip (typed_email w)) && has_asyncio_run w.
Proof.
  intros stored_empty stored_none.
  split; [reflexivity|].
  exact (main_without_token_facts stored_empty eq_refl).
Qed.

(** The probe reports "reachable" for every response, whatever its status
    code: no [raise_for_status] is called. *)
Example reachable_on_server_error :
  reachability_report (HttpResponse 500) = "✅ API endpoint reachable (Status: 500)".
Proof. reflexivity. Qed.

(** An exception that is both a [Timeout] and a [ConnectionError] (such as
    [ConnectTimeout]) is reported as a timeout: that clause comes first. *)
Example connect_timeout_is_timeout (e : exn) :
  reachability (HttpRaises e true true) = TimedOut.
Proof. reflexivity. Qed.


(** * Further properties of the probes *)

Lemma count_app (p : event → bool) (t1 t2 : list event) :
  count p (t1 ++ t2) = count p t1 + count p t2.
Proof. unfold count. by rewrite filter_app, length_app. Qed.

Lemma count_prints (p : event → bool) (t : list event) :
  (∀ s, p (EvPrint s) = false) →
  forallb is_print t = true →
  count p t = 0.
Proof.
  intros Hp. induction t as [|ev t IH]; [done|].
  cbn [forallb]. intros [Hev Ht]%andb_true_iff.
  destruct ev; try discriminate.
  change (EvPrint text :: t) with ([EvPrint text] ++ t).
  rewrite count_app, (IH Ht). unfold count. rewrite filter_cons.
  case_decide as Hd; [by rewrite Hp in Hd | reflexivity].
Qed.

(** X1.  An exception whose lowered message carries none of the six markers
    falls into the last branch of either handler: the probe prints the
    message and the class name of the exception and returns INVALID. *)
Theorem X1_unmarked_failure_is_invalid (w : World) (token email password : string) (e : exn) :
  accounts_answer w = Raises e →
  login_answer w = Returns tt →
  auth_marked (Text.lower (exc_str e)) = false →
  rate_marked (Text.lower (exc_str e)) = false →
  test_token_validity w token =
    (validity_opening token
       ++ [EvPrint ("❌ Token test failed with error: " +:+ exc_str e);
           EvPrint ("   Error type: " +:+ exc_type e)],
     Returns INVALID)
  ∧ test_fresh_login w email password =
      (fresh_login_opening email password
         ++ [EvPrint ("❌ Fresh login failed: " +:+ exc_str e);
             EvPrint ("   Error type: " +:+ exc_type e)],
       Returns INVALID).
Proof.
  intros Ha Hl Hauth Hrate.
  rewrite (token_validity_on_raise w token e Ha).
  rewrite (fresh_login_on_raise w email password e Hl Ha).
  unfold token_validity_handler, fresh_login_handler.
  unfold auth_marked in Hauth. unfold rate_marked in Hrate.
  rewrite Hauth, Hrate.
  apply orb_false_iff in Hauth as [Hlm _]. rewrite Hlm.
  split; reflexivity.
Qed.

(** X1 at a concrete run: the connection to the API is reset. *)
Lemma X1_unmarked_failure_is_invalid_witness :
  let w := with_accounts (Raises (Exn "ClientError" "Connection reset by peer"))
             Scenario.good_token in
  result (test_token_validity w "GOODTOKEN") = Returns INVALID
  ∧ last (trace (test_token_validity w "GOODTOKEN"))
    = Some (EvPrint "   Error type: ClientError").
Proof.
  intros w.
  destruct (X1_unmarked_failure_is_invalid w "GOODTOKEN" "user@example.com" "hunter2"
              (Exn "ClientError" "Connection reset by peer")
              eq_refl eq_refl eq_refl eq_refl) as [-> _].
  split; reflexivity.
Defined.

(** X2.  The verdict on an exception depends on the lowered message alone:
    two exceptions whose messages differ only in the case of their letters,
    whatever their classes, get the same verdict from each probe. *)
Theorem X2_verdict_ignores_case_and_class (w1 w2 : World) (token1 token2 : string)
    (email1 password1 email2 password2 : string) (e1 e2 : exn) :
  accounts_answer w1 = Raises e1 →
  accounts_answer w2 = Raises e2 →
  login_answer w1 = Returns tt →
  login_answer w2 = Returns tt →
  Text.lower (exc_str e1) = Text.lower (exc_str e2) →
  result (test_token_validity w1 token1) = result (test_token_validity w2 token2)
  ∧ result (test_fresh_login w1 email1 password1)
    = result (test_fresh_login w2 email2 password2).
Proof.
  intros Ha1 Ha2 Hl1 Hl2 Hlow.
  rewrite (token_validity_on_raise w1 token1 e1 Ha1).
  rewrite (token_validity_on_raise w2 token2 e2 Ha2).
  rewrite (fresh_login_on_raise w1 email1 password1 e1 Hl1 Ha1).
  rewrite (fresh_login_on_raise w2 email2 password2 e2 Hl2 Ha2).
  cbn [result snd].
  rewrite !token_validity_handler_result, !fresh_login_handler_result.
  by rewrite Hlow.
Qed.

(** X2 at a concrete pair: "RATE LIMIT EXCEEDED" raised as a [RuntimeError]
    and "Rate limit exceeded" raised as an [Exception]. *)
Lemma X2_verdict_ignores_case_and_class_witness :
  let w1 := with_accounts (Raises (Exn "RuntimeError" "RATE LIMIT EXCEEDED"))
              Scenario.good_token in
  let w2 := with_accounts (Raises (Exn "Exception" "Rate limit exceeded"))
              Scenario.good_token in
  result (test_token_validity w1 "A") = result (test_token_validity w2 "B")
  ∧ result (test_token_validity w1 "A") = Returns RATE_LIMITED.
Proof.
  intros w1 w2.
  destruct (X2_verdict_ignores_case_and_class w1 w2 "A" "B" "a" "b" "c" "d"
              (Exn "RuntimeError" "RATE LIMIT EXCEEDED")
              (Exn "Exception" "Rate limit exceeded")
              eq_refl eq_refl eq_refl eq_refl eq_refl) as [H _].
  split; [exact H | reflexivity].
Defined.

(** X3.  When [login] raises, the fresh-login probe never calls
    [get_accounts]; the exception of [login] goes through the same handler,
    so the verdict is RATE_LIMITED if the lowered message carries a
    rate-limit marker and INVALID otherwise. *)
Theorem X3_failed_login_skips_get_accounts (w : World) (email password : string) (e : exn) :
  login_answer w = Raises e →
  occurs is_get_accounts (trace (test_fresh_login w email password)) = false
  ∧ effects (trace (test_fresh_login w email password))
    = [EvNewClient None; EvLogin email password]
  ∧ result (test_fresh_login w email password)
    = Returns (if rate_marked (Text.lower (exc_str e)) then RATE_LIMITED else INVALID).
Proof.
  intros Hl. rewrite (fresh_login_on_login_raise w email password e Hl).
  cbn [trace result fst snd]. rewrite fresh_login_handler_result.
  pose proof (fresh_login_handler_prints e) as Hp.
  split; [|split; [|reflexivity]].
  - rewrite occurs_app. by rewrite (occurs_prints is_get_accounts _ (λ _, eq_refl) Hp).
  - unfold effects. rewrite filter_app.
    assert (filter (λ ev, is_print ev = false) (trace (fresh_login_handler e)) = []) as ->.
    { revert Hp. generalize (trace (fresh_login_handler e)).
      induction l as [|ev l IH]; [done|]. cbn [forallb].
      intros [Hev Hl']%andb_true_iff. rewrite filter_cons.
      case_decide as Hd; [congruence | by apply IH]. }
    reflexivity.
Qed.

(** X3 at a concrete run: the password is wrong. *)
Lemma X3_failed_login_skips_get_accounts_witness :
  let w := {| clock := "2025-01-15 09:30:00"; stored_token := None;
              typed_email := "user@example.com"; typed_password := "wrong";
              login_answer := Raises (Exn "LoginFailedException" "HTTP Code 401: Unauthorized");
              accounts_answer := Returns Scenario.three_accounts;
              http := HttpResponse 200; has_asyncio_run := true |} in
  occurs is_get_accounts (trace (test_fresh_login w "user@example.com" "wrong")) = false
  ∧ result (test_fresh_login w "user@example.com" "wrong") = Returns INVALID.
Proof.
  intros w.
  destruct (X3_failed_login_skips_get_accounts w "user@example.com" "wrong"
              (Exn "LoginFailedException" "HTTP Code 401: Unauthorized") eq_refl)
    as (H1 & _ & H3).
  split; [exact H1 | exact H3].
Defined.

Lemma effects_app (t1 t2 : list event) :
  effects (t1 ++ t2) = effects t1 ++ effects t2.
Proof. apply filter_app. Qed.

Lemma effects_prints (t : list event) :
  forallb is_print t = true → effects t = [].
Proof.
  induction t as [|ev t IH]; [done|]. cbn [forallb].
  intros [Hev Ht]%andb_true_iff. unfold effects. rewrite filter_cons.
  case_decide as Hd; [congruence | by apply IH].
Qed.

(** After a successful [login] the fresh-login probe calls [get_accounts],
    returns, and from then on only prints. *)
Lemma fresh_login_shape_ok (w : World) (email password : string) :
  login_answer w = Returns tt →
  ∃ tail r,
    test_fresh_login w email password =
      (fresh_login_opening email password ++ tail, Returns r)
    ∧ forallb is_print tail = true.
Proof.
  intros Hl. destruct (accounts_answer w) as [v|e] eqn:Ha.
  - destruct (truthy v && is_dict v) eqn:Hv.
    + apply andb_true_iff in Hv as [Htr Hdict].
      destruct v as [| | | | | |d]; try discriminate.
      apply dict_truthy in Htr.
      destruct (len (dict_get d "accounts" (VList []))) as [n|e] eqn:Hn.
      * rewrite (fresh_login_counted w email password Hl d n Ha Htr Hn).
        by eexists _, _.
      * rewrite (fresh_login_uncounted w email password Hl d e Ha Htr Hn).
        destruct (handler_returns_fresh e) as [r ->].
        eexists _, _. split; [reflexivity | apply fresh_login_handler_prints].
    + rewrite (fresh_login_unexpected w email password Hl v Ha Hv).
      by eexists _, _.
  - rewrite (fresh_login_on_raise w email password e Hl Ha).
    destruct (handler_returns_fresh e) as [r ->].
    eexists _, _. split; [reflexivity | apply fresh_login_handler_prints].
Qed.

Lemma token_validity_effects (w : World) (token : string) :
  effects (trace (test_token_validity w token))
  = [EvNewClient (Some token); EvGetAccounts].
Proof.
  destruct (token_validity_shape w token) as (tail & r & -> & Ht).
  cbn [trace fst]. rewrite effects_app, (effects_prints tail Ht). reflexivity.
Qed.

Lemma fresh_login_effects (w : World) (email password : string) :
  effects (trace (test_fresh_login w email password))
  = [EvNewClient None; EvLogin email password]
      ++ match login_answer w with
         | Returns _ => [EvGetAccounts]
         | Raises _ => []
         end.
Proof.
  destruct (login_answer w) as [[]|e] eqn:Hl.
  - destruct (fresh_login_shape_ok w email password Hl) as (tail & r & -> & Ht).
    cbn [trace fst]. rewrite effects_app, (effects_prints tail Ht). reflexivity.
  - rewrite (fresh_login_on_login_raise w email password e Hl).
    cbn [trace fst].
    rewrite effects_app, (effects_prints _ (fresh_login_handler_prints e)).
    reflexivity.
Qed.

(** X4.  What each probe does besides printing.  The validity probe builds
    one client, with the token it was given, and calls [get_accounts] once.
    The fresh-login probe builds one client without a token, logs in once
    with the credentials it was given, and calls [get_accounts] exactly when
    the login returned. *)
Theorem X4_effects_of_the_probes (w : World) (token email password : string) :
  effects (trace (test_token_validity w token))
  = [EvNewClient (Some token); EvGetAccounts]
  ∧ effects (trace (test_fresh_login w email password))
    = [EvNewClient None; EvLogin email password]
        ++ match login_answer w with
           | Returns _ => [EvGetAccounts]
           | Raises _ => []
           end.
Proof. split; [apply token_validity_effects | apply fresh_login_effects]. Qed.

(** X5.  The count a probe reports is [len] of whatever is stored under
    "accounts", list or not: a string is counted by its characters and a
    dict by its keys, and the verdict is VALID all the same. *)
Theorem X5_count_is_len_of_entry (w : World) (token email password : string)
    (d : gmap string value) :
  accounts_answer w = Returns (VDict d) →
  login_answer w = Returns tt →
  (∀ s, d !! "accounts" = Some (VStr s) →
     test_token_validity w token =
       (validity_opening token
          ++ [EvPrint ("✅ Token is VALID - Found " +:+ pretty (Text.len s)
                       +:+ " accounts")],
        Returns VALID)
     ∧ test_fresh_login w email password =
         (fresh_login_opening email password
            ++ [EvPrint ("✅ Fresh login WORKS - Found " +:+ pretty (Text.len s)
                         +:+ " accounts")],
          Returns VALID))
  ∧ (∀ d' : gmap string value, d !! "accounts" = Some (VDict d') →
       test_token_validity w token =
         (validity_opening token
            ++ [EvPrint ("✅ Token is VALID - Found " +:+ pretty (size d')
                         +:+ " accounts")],
          Returns VALID)
       ∧ test_fresh_login w email password =
           (fresh_login_opening email password
              ++ [EvPrint ("✅ Fresh login WORKS - Found " +:+ pretty (size d')
                           +:+ " accounts")],
            Returns VALID)).
Proof.
  intros Ha Hl. split.
  - intros s Hk. pose proof (lookup_nonempty _ _ _ Hk) as Hd.
    assert (len (dict_get d "accounts" (VList [])) = Returns (Text.len s)) as Hn
      by (unfold dict_get; by rewrite Hk).
    split; [by apply token_validity_counted with d
           | by apply fresh_login_counted with d].
  - intros d' Hk. pose proof (lookup_nonempty _ _ _ Hk) as Hd.
    assert (len (dict_get d "accounts" (VList [])) = Returns (size d')) as Hn
      by (unfold dict_get; by rewrite Hk).
    split; [by apply token_validity_counted with d
           | by apply fresh_login_counted with d].
Qed.

(** X5 at a concrete run: the entry is the string "héé", three characters
    in five bytes. *)
Lemma X5_count_is_len_of_entry_witness :
  let w := with_accounts (Returns (VDict {[ "accounts" := VStr "héé" ]}))
             Scenario.good_token in
  test_token_validity w "GOODTOKEN" =
    (validity_opening "GOODTOKEN" ++ [EvPrint "✅ Token is VALID - Found 3 accounts"],
     Returns VALID).
Proof.
  intros w.
  destruct (X5_count_is_len_of_entry w "GOODTOKEN" "user@example.com" "hunter2"
              {[ "accounts" := VStr "héé" ]} eq_refl eq_refl) as [Hs _].
  exact (proj1 (Hs "héé" eq_refl)).
Defined.

(** * Further properties of a whole run *)

Lemma print_conclusion_prints (r : option bool) :
  forallb is_print (trace (print_conclusion r)) = true.
Proof. by destruct r as [[|]|]. Qed.

Lemma print_summary_prints (token : option string) (r : option bool) :
  forallb is_print (trace (print_summary token r)) = true.
Proof.
  unfold print_summary, print_findings.
  by destruct r as [[|]|], (token_truthy token).
Qed.

Lemma print_recommendation_prints (token : option string) (r : option bool) :
  forallb is_print (trace (print_recommendation token r)) = true.
Proof. reflexivity. Qed.

Section RunEffects.
Variable w : World.

(** The effects of a run, prints left out. *)
Lemma main_effects :
  effects (trace (main w)) =
  EvLoadToken ::
  (if token_truthy (stored_token w) then
     (if has_asyncio_run w then
        [EvAsyncioRun (TestTokenValidity (token_text (stored_token w)));
         EvNewClient (Some (token_text (stored_token w)));
         EvGetAccounts; EvHttpGet "https://api.monarchmoney.com" 5]
      else [])
   else
     EvInput (nl +:+ "Enter your Monarch email (or press Enter to skip): ") ::
     (if Text.nonempty (Text.strip (typed_email w)) then
        EvGetpass "Enter your Monarch password: " ::
        (if has_asyncio_run w then
           [EvAsyncioRun (TestFreshLogin (Text.strip (typed_email w)) (typed_password w));
            EvNewClient None;
            EvLogin (Text.strip (typed_email w)) (typed_password w)]
             ++ match login_answer w with
                | Returns _ => [EvGetAccounts]
                | Raises _ => []
                end
         else [])
      else [])).
Proof.
  destruct (token_truthy (stored_token w)) eqn:H.
  - destruct (run_validity_cases w (token_text (stored_token w)))
      as [(-> & tail & r & _ & E & Ht) | (-> & E)].
    + rewrite (main_on_token w _ r H E). cbn [trace fst].
      change (EvAsyncioRun ?c :: ?l) with ([EvAsyncioRun c] ++ l).
      rewrite !effects_app.
      rewrite (effects_prints tail Ht).
      rewrite (effects_prints _ (print_conclusion_prints r)).
      rewrite (effects_prints _ (print_summary_prints (stored_token w) r)).
      rewrite (effects_prints _ (print_recommendation_prints (stored_token w) r)).
      reflexivity.
    + rewrite (main_on_token_stopped w _ _ H E). cbn [trace fst].
      rewrite !effects_app. reflexivity.
  - rewrite (main_without_token w H). cbn [trace fst].
    rewrite !effects_app.
    destruct (main_no_token_cases w)
      as [[-> ->] | [(-> & -> & t & r & E & ->) | (-> & -> & ->)]]; cbn [trace fst].
    + reflexivity.
    + pose proof (fresh_login_effects w (Text.strip (typed_email w))
                    (typed_password w)) as Hf.
      rewrite E in Hf. cbn [trace fst] in Hf.
      rewrite !effects_app, Hf. by destruct (login_answer w).
    + reflexivity.
Qed.

End RunEffects.

(** X6.  What a run of [main] does besides printing.  It always reads the
    stored token.  With a token it runs the validity probe (one client built
    with that token, one [get_accounts]) and then one GET to the API host
    with a timeout of 5 seconds.  Without a token it asks for the address;
    if the stripped address is empty it does nothing more, otherwise it
    reads the password and runs the fresh-login probe (one client without a
    token, one [login] with the stripped address and the password, and one
    [get_accounts] if the login went through).  Where [asyncio.run] is
    missing, the run stops at the point where a probe would start. *)
Theorem X6_effects_of_a_run (w : World) :
  effects (trace (main w)) =
  EvLoadToken ::
  (if token_truthy (stored_token w) then
     (if has_asyncio_run w then
        [EvAsyncioRun (TestTokenValidity (token_text (stored_token w)));
         EvNewClient (Some (token_text (stored_token w)));
         EvGetAccounts; EvHttpGet "https://api.monarchmoney.com" 5]
      else [])
   else
     EvInput (nl +:+ "Enter your Monarch email (or press Enter to skip): ") ::
     (if Text.nonempty (Text.strip (typed_email w)) then
        EvGetpass "Enter your Monarch password: " ::
        (if has_asyncio_run w then
           [EvAsyncioRun (TestFreshLogin (Text.strip (typed_email w)) (typed_password w));
            EvNewClient None;
            EvLogin (Text.strip (typed_email w)) (typed_password w)]
             ++ match login_answer w with
                | Returns _ => [EvGetAccounts]
                | Raises _ => []
                end
         else [])
      else [])).
Proof. apply main_effects. Qed.

Lemma count_effects (p : event → bool) (t : list event) :
  (∀ s, p (EvPrint s) = false) →
  count p t = count p (effects t).
Proof.
  intros Hp. induction t as [|ev t IH]; [done|].
  change (ev :: t) with ([ev] ++ t). rewrite effects_app, !count_app, IH.
  f_equal. destruct ev; try reflexivity.
  unfold count at 1. rewrite filter_cons.
  case_decide as Hd; [by rewrite Hp in Hd | reflexivity].
Qed.

Lemma count_cons (p : event → bool) (ev : event) (t : list event) :
  count p (ev :: t) = (if p ev then 1 else 0) + count p t.
Proof.
  unfold count. rewrite filter_cons.
  destruct (p ev); case_decide; done.
Qed.

Lemma occurs_count (p : event → bool) (t : list event) :
  occurs p t = false ↔ count p t = 0.
Proof.
  induction t as [|ev t IH]; [done|].
  rewrite count_cons. unfold occurs in *. cbn [existsb].
  destruct (p ev); cbn [orb]; [split; [done | lia] | by rewrite IH].
Qed.

(** ** Facts about [strip], [len] and slices *)

Lemma string_len_ind (P : string → Prop) :
  (∀ s, (∀ t, (String.length t < String.length s)%nat → P t) → P s) →
  ∀ s, P s.
Proof.
  intros H.
  assert (∀ n s, (String.length s < n)%nat → P s) as Hn.
  { induction n as [|n IH]; intros s Hs; [lia|].
    apply H. intros t Ht. apply IH. lia. }
  intros s. apply (Hn (S (String.length s))). lia.
Qed.

Lemma lstrip_all_blank (s : string) :
  Text.all_blank s = true → Text.lstrip s = EmptyString.
Proof.
  induction s as [s IH] using string_len_ind.
  destruct s as [|c1 t1]; [done|].
  cbn [Text.all_blank Text.lstrip].
  destruct (Text.blank1 c1); [apply IH; cbn; lia|].
  destruct t1 as [|c2 t2]; [done|].
  destruct (Text.blank2 c1 c2); [apply IH; cbn; lia|].
  destruct t2 as [|c3 t3]; [done|].
  destruct (Text.blank3 c1 c2 c3); [apply IH; cbn; lia | done].
Qed.

Lemma strip_all_blank (s : string) :
  all_blank s = true → Text.strip s = EmptyString.
Proof.
  unfold all_blank, Text.strip. intros H. by rewrite (lstrip_all_blank s H).
Qed.

(** [lstrip] takes a run of white space off the front. *)
Lemma lstrip_split (s : string) :
  ∃ lead, s = lead +:+ Text.lstrip s ∧ Text.all_blank lead = true.
Proof.
  induction s as [s IH] using string_len_ind.
  destruct s as [|c1 t1]; [by exists EmptyString|].
  cbn [Text.lstrip].
  destruct (Text.blank1 c1) eqn:H1.
  { destruct (IH t1) as (lead & E & Hb); [cbn; lia|].
    exists (String c1 lead). split; [rewrite E at 1; reflexivity|].
    cbn [Text.all_blank]. by rewrite H1. }
  destruct t1 as [|c2 t2]; [by exists EmptyString|].
  destruct (Text.blank2 c1 c2) eqn:H2.
  { destruct (IH t2) as (lead & E & Hb); [cbn; lia|].
    exists (String c1 (String c2 lead)). split; [rewrite E at 1; reflexivity|].
    cbn [Text.all_blank]. by rewrite H1, H2. }
  destruct t2 as [|c3 t3]; [by exists EmptyString|].
  destruct (Text.blank3 c1 c2 c3) eqn:H3; [|by exists EmptyString].
  destruct (IH t3) as (lead & E & Hb); [cbn; lia|].
  exists (String c1 (String c2 (String c3 lead))). split; [rewrite E at 1; reflexivity|].
  cbn [Text.all_blank]. by rewrite H1, H2, H3.
Qed.

(** [rstrip] takes a run of white space off the back. *)
Lemma rstrip_split (s : string) :
  ∃ trail, s = Text.rstrip s +:+ trail ∧ Text.all_blank trail = true.
Proof.
  induction s as [|c t IH]; [by exists EmptyString|].
  change (Text.rstrip (String c t))
    with (if Text.all_blank (String c t) then EmptyString
          else String c (Text.rstrip t)).
  destruct (Text.all_blank (String c t)) eqn:Hb.
  - by exists (String c t).
  - destruct IH as (trail & E & Ht). exists trail. split; [|done].
    rewrite E at 1. reflexivity.
Qed.

Lemma strip_split (s : string) :
  ∃ lead trail,
    s = lead +:+ (Text.strip s +:+ trail)
    ∧ Text.all_blank lead = true ∧ Text.all_blank trail = true.
Proof.
  destruct (lstrip_split s) as (lead & E1 & H1).
  destruct (rstrip_split (Text.lstrip s)) as (trail & E2 & H2).
  exists lead, trail. split; [|done].
  unfold Text.strip. by rewrite <- E2.
Qed.

(** A slice that reaches past the end of a text returns all of it. *)
Lemma take_short (n : nat) (s : string) :
  (Text.len s ≤ n)%nat → Text.take n s = s.
Proof.
  revert n. induction s as [|c s IH]; intros n Hn; [done|].
  cbn [Text.take Text.len] in *. destruct (Text.is_cont c).
  - by rewrite IH.
  - destruct n as [|n]; [lia|]. rewrite IH; [done | lia].
Qed.

Lemma take_last_short (n : nat) (s : string) :
  (Text.len s ≤ n)%nat → Text.take_last n s = s.
Proof.
  intros Hn. unfold Text.take_last.
  by destruct (Nat.leb_spec (Text.len s) n); [|lia].
Qed.

Lemma len_take (n : nat) (s : string) :
  Text.len (Text.take n s) = Nat.min n (Text.len s).
Proof.
  revert n. induction s as [|c s IH]; intros n; [by destruct n|].
  cbn [Text.take Text.len]. destruct (Text.is_cont c) eqn:Hc.
  - cbn [Text.len]. by rewrite Hc, IH.
  - destruct n as [|n]; [done|]. cbn [Text.len]. rewrite Hc, IH. lia.
Qed.

Lemma len_drop (n : nat) (s : string) :
  Text.len (Text.drop n s) = Text.len s - n.
Proof.
  revert n. induction s as [|c s IH]; intros n; [done|].
  cbn [Text.drop]. destruct (Text.is_cont c) eqn:Hc.
  - cbn [Text.len]. by rewrite Hc, IH.
  - destruct n as [|n].
    + cbn [Text.len]. rewrite Hc. lia.
    + cbn [Text.len]. rewrite Hc, IH. lia.
Qed.

Lemma len_take_last (n : nat) (s : string) :
  (n ≤ Text.len s)%nat → Text.len (Text.take_last n s) = n.
Proof.
  intros Hn. unfold Text.take_last.
  destruct (Nat.leb_spec (Text.len s) n); [lia|].
  rewrite len_drop. lia.
Qed.

(** X7.  On an interpreter without [asyncio.run], [main] stops where a
    probe would start, with the [AttributeError] of the failed lookup: a run
    with a token prints the token lines and the banner of the second check
    and reaches neither the probe nor the reachability check nor the
    recommendation; a run without a token asks for the address and, if one
    is typed, for the password, and then raises before any login. *)
Theorem X7_without_asyncio_run_no_probe_starts (w : World) :
  has_asyncio_run w = false →
  (token_truthy (stored_token w) = true →
     main w =
       (trace (print_header w) ++ [EvLoadToken]
          ++ token_announced (token_text (stored_token w)),
        Raises no_asyncio_run))
  ∧ (token_truthy (stored_token w) = false →
     Text.nonempty (Text.strip (typed_email w)) = true →
     main w =
       (trace (print_header w) ++ [EvLoadToken] ++ no_token_prompt
          ++ [EvGetpass "Enter your Monarch password: "],
        Raises no_asyncio_run)).
Proof.
  intros Hr. split.
  - intros H.
    rewrite (main_on_token_stopped w [] no_asyncio_run H (run_validity_off w _ Hr)).
    by rewrite app_nil_r.
  - intros H He. rewrite (main_without_token w H).
    rewrite (main_no_token_stopped w [] no_asyncio_run He
               (run_fresh_login_off w _ _ Hr)).
    by rewrite app_nil_r.
Qed.

(** X7 at a concrete run: a good token on an interpreter without
    [asyncio.run]. *)
Lemma X7_without_asyncio_run_no_probe_starts_witness :
  result (main (with_asyncio_run false Scenario.good_token)) = Raises no_asyncio_run
  ∧ effects (trace (main (with_asyncio_run false Scenario.good_token))) = [EvLoadToken].
Proof.
  destruct (X7_without_asyncio_run_no_probe_starts
              (with_asyncio_run false Scenario.good_token) eq_refl) as [H _].
  rewrite (H eq_refl). split; reflexivity.
Defined.


(** X9.  Without a stored token, an answer to the prompt that is empty or
    made of blanks only ends the run there: no password is asked for, no
    client is built, nothing is sent to the API or the network. *)
Theorem X9_blank_address_skips_login (w : World) :
  token_truthy (stored_token w) = false →
  all_blank (typed_email w) = true →
  main w = (trace (print_header w) ++ [EvLoadToken] ++ no_token_prompt, Returns tt).
Proof.
  intros H Hb. rewrite (main_without_token w H).
  assert (Text.nonempty (Text.strip (typed_email w)) = false) as He
    by by rewrite (strip_all_blank _ Hb).
  by rewrite (main_no_token_skipped w He).
Qed.

(** X9 at a concrete run: the user types three spaces. *)
Lemma X9_blank_address_skips_login_witness :
  effects (trace (main (with_typed "   " "hunter2" Scenario.no_token)))
  = [EvLoadToken;
     EvInput (nl +:+ "Enter your Monarch email (or press Enter to skip): ")].
Proof.
  rewrite (X9_blank_address_skips_login
             (with_typed "   " "hunter2" Scenario.no_token) eq_refl eq_refl).
  reflexivity.
Defined.

(** X10.  The reachability probe runs exactly once in a run with a stored
    token (on an interpreter that has [asyncio.run]) and not at all in a
    run without one: the no-token branch returns before the third check. *)
Theorem X10_reachability_only_with_token (w : World) :
  count is_http_get (trace (main w))
  = if token_truthy (stored_token w) && has_asyncio_run w then 1 else 0.
Proof.
  rewrite (count_effects is_http_get _ (λ _, eq_refl)), main_effects.
  generalize (Text.strip (typed_email w)) (token_text (stored_token w))
    (typed_password w).
  intros address token password.
  by destruct (token_truthy (stored_token w)), (has_asyncio_run w),
    (Text.nonempty address), (login_answer w).
Qed.

(** X11.  A run with a stored token never waits for the user and never logs
    in: no [input], no [getpass], no [login].  Where [asyncio.run] exists,
    the only client it builds carries the stored token, and it calls
    [get_accounts] once. *)
Theorem X11_token_run_is_not_interactive (w : World) :
  token_truthy (stored_token w) = true →
  occurs is_interactive (trace (main w)) = false
  ∧ occurs is_login (trace (main w)) = false
  ∧ (has_asyncio_run w = true →
     filter (λ ev, is_new_client ev = true) (trace (main w))
       = [EvNewClient (Some (token_text (stored_token w)))]
     ∧ count is_get_accounts (trace (main w)) = 1).
Proof.
  intros H.
  pose proof (main_effects w) as E. rewrite H in E.
  split; [|split].
  - apply occurs_count. rewrite (count_effects _ _ (λ _, eq_refl)), E.
    by destruct (has_asyncio_run w).
  - apply occurs_count. rewrite (count_effects _ _ (λ _, eq_refl)), E.
    by destruct (has_asyncio_run w).
  - intros Hr. rewrite Hr in E. split.
    + assert (∀ t, filter (λ ev, is_new_client ev = true) t
                   = filter (λ ev, is_new_client ev = true) (effects t)) as Hf.
      { induction t as [|ev t IH]; [done|].
        change (ev :: t) with ([ev] ++ t). rewrite effects_app, !filter_app, IH.
        f_equal. by destruct ev. }
      by rewrite Hf, E.
    + by rewrite (count_effects _ _ (λ _, eq_refl)), E.
Qed.

(** X11 at a concrete run: the stored token is rejected. *)
Lemma X11_token_run_is_not_interactive_witness :
  occurs is_interactive (trace (main Scenario.bad_token)) = false
  ∧ count is_get_accounts (trace (main Scenario.bad_token)) = 1.
Proof.
  destruct (X11_token_run_is_not_interactive Scenario.bad_token eq_refl)
    as (H1 & _ & H3).
  split; [exact H1 | exact (proj2 (H3 eq_refl))].
Defined.

(** X12.  Nothing is retried: a run reads the stored token once and makes
    at most one [login], at most one [get_accounts], at most one client and
    at most one GET, whatever fails. *)
Theorem X12_nothing_is_retried (w : World) :
  count is_load_token (trace (main w)) = 1
  ∧ (count is_login (trace (main w)) ≤ 1)%nat
  ∧ (count is_get_accounts (trace (main w)) ≤ 1)%nat
  ∧ (count is_new_client (trace (main w)) ≤ 1)%nat
  ∧ (count is_http_get (trace (main w)) ≤ 1)%nat.
Proof.
  rewrite (count_effects is_load_token _ (λ _, eq_refl)).
  rewrite (count_effects is_login _ (λ _, eq_refl)).
  rewrite (count_effects is_get_accounts _ (λ _, eq_refl)).
  rewrite (count_effects is_new_client _ (λ _, eq_refl)).
  rewrite (count_effects is_http_get _ (λ _, eq_refl)).
  rewrite main_effects.
  generalize (Text.strip (typed_email w)) (token_text (stored_token w))
    (typed_password w).
  intros address token password.
  destruct (token_truthy (stored_token w)), (has_asyncio_run w),
    (Text.nonempty address), (login_answer w);
    repeat split; vm_compute; lia.
Qed.

(** X13.  When the fresh-login probe hands a verdict to [main], the last
    thing the run does is print one closing line chosen by that verdict:
    VALID tells to run login_setup.py to save the session, RATE_LIMITED to
    wait 30-60 minutes and then run it, INVALID to check the credentials.
    Then [main] returns. *)
Theorem X13_fresh_login_closing_line (w : World) (r : option bool) :
  token_truthy (stored_token w) = false →
  Text.nonempty (Text.strip (typed_email w)) = true →
  result (run_fresh_login w (Text.strip (typed_email w)) (typed_password w))
    = Returns r →
  last (trace (main w)) =
    Some (EvPrint
            match r with
            | Some true =>
                nl +:+ "✅ Fresh login successful! Run login_setup.py to save the session."
            | None =>
                nl +:+ "⏰ Rate limited - wait 30-60 minutes, then run login_setup.py"
            | Some false =>
                nl +:+ "❌ Fresh login failed - check credentials"
            end)
  ∧ result (main w) = Returns tt.
Proof.
  intros H He Hr.
  destruct (run_fresh_login w (Text.strip (typed_email w)) (typed_password w))
    as [t o] eqn:E.
  cbn in Hr. subst o.
  rewrite (main_without_token w H), (main_no_token_closing w t r He E).
  cbn [trace result fst snd]. split; [|reflexivity].
  rewrite !app_assoc, last_snoc. by destruct r as [[|]|].
Qed.

(** X13 at a concrete run: the fresh login is throttled. *)
Lemma X13_fresh_login_closing_line_witness :
  let w := with_accounts (Raises Scenario.throttled) Scenario.no_token in
  last (trace (main w))
  = Some (EvPrint (nl +:+ "⏰ Rate limited - wait 30-60 minutes, then run login_setup.py")).
Proof.
  intros w.
  exact (proj1 (X13_fresh_login_closing_line w RATE_LIMITED eq_refl eq_refl eq_refl)).
Defined.

(** X14.  The preview line shows the first 20 and the last 10 characters of
    the stored token.  A token of at most 20 characters is therefore printed
    in full, and one of at most 10 characters twice; of a token of 30
    characters or more, 20 and 10 characters are shown. *)
Theorem X14_token_preview (w : World) :
  token_truthy (stored_token w) = true →
  let token := token_text (stored_token w) in
  EvPrint ("   Token preview: " +:+ Text.take 20 token +:+ "..."
           +:+ Text.take_last 10 token) ∈ trace (main w)
  ∧ ((Text.len token ≤ 20)%nat → Text.take 20 token = token)
  ∧ ((Text.len token ≤ 10)%nat → Text.take_last 10 token = token)
  ∧ ((30 ≤ Text.len token)%nat →
     Text.len (Text.take 20 token) = 20
     ∧ Text.len (Text.take_last 10 token) = 10).
Proof.
  intros H token. split; [|split; [|split]].
  - assert (∃ t o, main w =
              (trace (print_header w) ++ [EvLoadToken] ++ token_announced token ++ t, o))
      as (t & o & ->).
    { destruct (run_validity_cases w token)
        as [(_ & tail & r & _ & E & _) | (_ & E)].
      - rewrite (main_on_token w _ r H E). by eexists _, _.
      - rewrite (main_on_token_stopped w _ _ H E). by eexists _, _. }
    cbn [trace fst]. rewrite !elem_of_app. right. right. left.
    unfold token_announced.
    apply list_elem_of_further, list_elem_of_further, list_elem_of_here.
  - apply take_short.
  - apply take_last_short.
  - intros Hn. split; [rewrite len_take; lia | apply len_take_last; lia].
Qed.

(** X14 at a concrete run: the nine characters of "GOODTOKEN" are printed
    twice. *)
Lemma X14_token_preview_witness :
  EvPrint "   Token preview: GOODTOKEN...GOODTOKEN" ∈ trace (main Scenario.good_token).
Proof.
  exact (proj1 (X14_token_preview Scenario.good_token eq_refl)).
Defined.

(** X15.  The address handed to [login] is the typed line without the white
    space at its two ends, and it is never empty; the password is handed
    over as typed.  [login] is only ever called in a run without a stored
    token. *)
Theorem X15_login_gets_the_stripped_address (w : World) (email password : string) :
  EvLogin email password ∈ trace (main w) →
  email = Text.strip (typed_email w)
  ∧ password = typed_password w
  ∧ Text.nonempty email = true
  ∧ (∃ lead trail,
       typed_email w = lead +:+ (email +:+ trail)
       ∧ all_blank lead = true ∧ all_blank trail = true)
  ∧ token_truthy (stored_token w) = false.
Proof.
  intros Hin.
  assert (EvLogin email password ∈ effects (trace (main w))) as He
    by (apply list_elem_of_filter; by split).
  rewrite main_effects in He.
  apply elem_of_cons in He as [He|He]; [discriminate|].
  destruct (token_truthy (stored_token w)).
  { destruct (has_asyncio_run w).
    - repeat (apply elem_of_cons in He as [He|He]; [discriminate|]).
      by apply elem_of_nil in He.
    - by apply elem_of_nil in He. }
  apply elem_of_cons in He as [He|He]; [discriminate|].
  destruct (Text.nonempty (Text.strip (typed_email w))) eqn:Hne;
    [|by apply elem_of_nil in He].
  apply elem_of_cons in He as [He|He]; [discriminate|].
  destruct (has_asyncio_run w); [|by apply elem_of_nil in He].
  assert (EvLogin email password
          = EvLogin (Text.strip (typed_email w)) (typed_password w)) as [= -> ->].
  { apply elem_of_app in He as [He|He].
    - repeat (apply elem_of_cons in He as [He|He]; [discriminate|]).
      apply elem_of_cons in He as [He|He]; [exact He|].
      by apply elem_of_nil in He.
    - destruct (login_answer w).
      + apply elem_of_cons in He as [He|He]; [discriminate|].
        by apply elem_of_nil in He.
      + by apply elem_of_nil in He. }
  repeat split; try done.
  destruct (strip_split (typed_email w)) as (lead & trail & E & H1 & H2).
  by exists lead, trail.
Qed.

(** X15 at a concrete run: " user@example.com " is typed, "user@example.com"
    is sent. *)
Lemma X15_login_gets_the_stripped_address_witness :
  typed_email Scenario.no_token = " user@example.com "
  ∧ "user@example.com" = Text.strip (typed_email Scenario.no_token).
Proof.
  split; [reflexivity|].
  refine (proj1 (X15_login_gets_the_stripped_address Scenario.no_token
                   "user@example.com" "hunter2" _)).
  vm_compute.
  repeat first [apply list_elem_of_here | apply list_elem_of_further].
Defined.
